(** * Water-quality dashboard: windowing, resampling and presentation

    A shallow embedding of [main.py].  The callback [update_dashboard]
    reads today's readings, keeps those inside the selected time window,
    resamples them into fixed-width buckets of per-column means, and
    renders a chart, a table, four "latest value" cards and a JSON copy
    of the table for the export callback [export_data].

    Numbers are binary64 floats, as in Python and NumPy: columns are
    [PrimFloat.float], a missing value is NaN.  Instants are integers,
    the nanoseconds since the Unix epoch of a [datetime64[ns]] column.

    Definitions under [Module Python], [Module Pandas] and [Module Json]
    describe the library calls the callbacks make; everything else
    follows [main.py] line by line. *)

From Stdlib Require Import ZArith List String Ascii DecimalString Bool Lia.
From Stdlib Require Import Permutation Sorted.
From Stdlib Require Import QArith Qabs Qpower Lqa.
From Stdlib Require Import Floats.PrimFloat Floats.FloatOps Floats.SpecFloat Floats.FloatAxioms.
From Stdlib Require Import Numbers.Cyclic.Int63.Uint63.
Import ListNotations.
#[local] Set Warnings "-inexact-float".
Close Scope Q_scope.
Local Open Scope string_scope.
Local Open Scope list_scope.
Local Open Scope Z_scope.

(** ** Frames *)

(** The four measured columns, in the order of the [PARAMETERS] dict. *)
Inductive Param : Type := pH | TDS | Depth | FlowInd.

(** A row of a frame with the columns [timestamp, pH, TDS, Depth,
    FlowInd].  Both today's readings ([df]) and the resampled frame
    ([df_agg], after [reset_index]) have this shape. *)
Record Row : Type := mkRow {
  timestamp : Z;
  col_pH : float;
  col_TDS : float;
  col_Depth : float;
  col_FlowInd : float
}.

Definition DataFrame : Type := list Row.

(** [row[param]] *)
Definition cell (p : Param) (r : Row) : float :=
  match p with
  | pH => col_pH r
  | TDS => col_TDS r
  | Depth => col_Depth r
  | FlowInd => col_FlowInd r
  end.

(** A value is missing when it is NaN. *)
Definition missing (x : float) : bool := PrimFloat.is_nan x.

(** ** Constants of [main.py] *)

Record ParamConfig : Type := mkConfig {
  cfg_name : string;
  cfg_unit : string;
  cfg_color : string
}.

Definition PARAMETERS (p : Param) : ParamConfig :=
  match p with
  | pH => mkConfig "pH Level" "" "#1f77b4"
  | TDS => mkConfig "TDS" "ppm" "#ff7f0e"
  | Depth => mkConfig "Water Level" "m" "#2ca02c"
  | FlowInd => mkConfig "Flow Rate" "kL/10min" "#d62728"
  end.

(** [PARAMETERS.keys()] *)
Definition PARAMETERS_keys : list Param := [pH; TDS; Depth; FlowInd].

Definition param_id (p : Param) : string :=
  match p with
  | pH => "pH"
  | TDS => "TDS"
  | Depth => "Depth"
  | FlowInd => "FlowInd"
  end.

(** Dropdown value, dropdown label. *)
Definition TIME_RANGES : list (string * string) :=
  [ ("1H", "1 Hour"); ("6H", "6 Hours"); ("12H", "12 Hours");
    ("1D", "1 Day"); ("1W", "1 Week"); ("Custom", "Custom Range") ].

(** Dropdown label, dropdown value (a pandas frequency alias). *)
Definition AGGREGATIONS : list (string * string) :=
  [ ("10 Min", "10T"); ("30 Min", "30T"); ("1 Hour", "H");
    ("4 Hour", "4H"); ("Daily", "D") ].

(** The [hours_delta] dict of [update_dashboard]. *)
Definition hours_delta : list (string * Z) :=
  [ ("1H", 1); ("6H", 6); ("12H", 12); ("1D", 24); ("1W", 168) ].

(** ** Python built-ins *)

Module Python.

(** [d.get(k, default)] on a dict written as its item list. *)
Fixpoint dict_get {V : Type} (d : list (string * V)) (k : string) (default : V) : V :=
  match d with
  | [] => default
  | (k', v) :: rest => if String.eqb k' k then v else dict_get rest k default
  end.

(** *** Formatting floats: [f"{x:.2f}"]

    A finite binary64 value is [(-1)^s * m * 2^e] for a mantissa [m]
    and an exponent [e] ([Prim2SF]); the conversion to decimal rounds
    that exact value to the nearest numeral, ties to even. *)

(** [n / d] rounded to the nearest integer, ties to even ([0 < d]). *)
Definition div_round_half_even (n d : Z) : Z :=
  let q := n / d in
  let r := n mod d in
  match 2 * r ?= d with
  | Lt => q
  | Gt => q + 1
  | Eq => if Z.even q then q else q + 1
  end.

(** [m * 2^e * 10^digits], rounded to the nearest integer. *)
Definition scaled_round (m : positive) (e : Z) (digits : Z) : Z :=
  let n := Z.pos m * 10 ^ digits in
  if 0 <=? e then n * 2 ^ e else div_round_half_even n (2 ^ (- e)).

Definition digit_char (d : Z) : ascii := ascii_of_nat (48 + Z.to_nat d).

(** [str(n)] for [0 <= n]. *)
Definition str_of_nonneg (n : Z) : string :=
  NilZero.string_of_uint (N.to_uint (Z.to_N n)).

(** The numeral of [q / 100] with two decimals. *)
Definition fixed2 (q : Z) : string :=
  str_of_nonneg (q / 100) ++ "."
    ++ String (digit_char ((q / 10) mod 10)) (String (digit_char (q mod 10)) "").

Definition sign_str (s : bool) : string := if s then "-" else "".

(** [f"{x:.2f}"] *)
Definition format_2f (x : float) : string :=
  match Prim2SF x with
  | S754_nan => "nan"
  | S754_infinity s => sign_str s ++ "inf"
  | S754_zero s => sign_str s ++ fixed2 0
  | S754_finite s m e => sign_str s ++ fixed2 (scaled_round m e 2)
  end.

End Python.

(** ** pandas *)

Module Pandas.

Definition nanos_per_milli : Z := 1000000.
Definition nanos_per_minute : Z := 60000000000.
Definition nanos_per_hour : Z := 60 * nanos_per_minute.
Definition nanos_per_day : Z := 24 * nanos_per_hour.

(** [pd.Timedelta(hours=h)] *)
Definition Timedelta_hours (h : Z) : Z := h * nanos_per_hour.

(** [Timestamp.normalize()]: midnight of the instant's day. *)
Definition normalize (t : Z) : Z := t - t mod nanos_per_day.

(** [Series.max()] and [Series.min()] of a non-empty integer series. *)
Definition series_max (x0 : Z) (xs : list Z) : Z := fold_left Z.max xs x0.
Definition series_min (x0 : Z) (xs : list Z) : Z := fold_left Z.min xs x0.

(** [Series.between(left, right)], inclusive on both sides. *)
Definition between (left right t : Z) : bool := (left <=? t) && (t <=? right).

(** [df[df['timestamp'].between(left, right)]] *)
Definition filter_between (left right : Z) (df : DataFrame) : DataFrame :=
  filter (fun r => between left right (timestamp r)) df.

(** The frequency aliases the aggregation dropdown offers, as bucket
    widths in nanoseconds.  pandas reads more aliases than these five
    (["5T"], ["2H"], ...) and raises on a string that is no alias; this
    development covers the five of [AGGREGATIONS] only, and [None]
    stands for a string it does not cover.  Nothing is stated below
    about a non-empty frame aggregated with such a string. *)
Definition to_offset (freq : string) : option Z :=
  if String.eqb freq "10T" then Some (10 * nanos_per_minute)
  else if String.eqb freq "30T" then Some (30 * nanos_per_minute)
  else if String.eqb freq "H" then Some nanos_per_hour
  else if String.eqb freq "4H" then Some (4 * nanos_per_hour)
  else if String.eqb freq "D" then Some nanos_per_day
  else None.

(** *** Group means *)

(** One step of the compensated (Kahan) summation of the group-mean
    kernel: the state is the running sum and its compensation. *)
Definition kahan_add (acc : float * float) (val : float) : float * float :=
  let (sumx, compensation) := acc in
  let y := PrimFloat.sub val compensation in
  let t := PrimFloat.add sumx y in
  let c := PrimFloat.sub (PrimFloat.sub t sumx) y in
  (t, if PrimFloat.is_nan c then 0%float else c).

Definition kahan_sum (vals : list float) : float :=
  fst (fold_left kahan_add vals (0%float, 0%float)).

(** The observation count as a float. *)
Definition float_of_count (n : nat) : float :=
  PrimFloat.of_uint63 (Uint63.of_Z (Z.of_nat n)).

(** The non-missing values of a column slice. *)
Definition observed (vals : list float) : list float :=
  filter (fun v => negb (missing v)) vals.

(** ['mean'] of one group: NaN values are skipped; a group with no
    observation has mean NaN. *)
Definition group_mean (vals : list float) : float :=
  match observed vals with
  | [] => PrimFloat.nan
  | obs => PrimFloat.div (kahan_sum obs) (float_of_count (List.length obs))
  end.

(** *** Resampling *)

(** Stable sort on the timestamp column: the grouper sorts the frame on
    its time axis before it cuts the bins. *)
Fixpoint insert_row (r : Row) (l : DataFrame) : DataFrame :=
  match l with
  | [] => [r]
  | x :: xs => if timestamp r <=? timestamp x then r :: l else x :: insert_row r xs
  end.

Definition sort_values (df : DataFrame) : DataFrame := fold_right insert_row [] df.

(** [date_range(start, periods=n, freq=w)] *)
Fixpoint date_range (start w : Z) (n : nat) : list Z :=
  match n with
  | O => []
  | S k => start :: date_range (start + w) w k
  end.

(** The left edge of the first bin and the right edge of the last one
    for [closed='left'] and [origin='start_day']: both are anchored at
    midnight of the first timestamp's day. *)
Definition range_edges (w first last : Z) : Z * Z :=
  let origin := normalize first in
  let foffset := (first - origin) mod w in
  let loffset := (last - origin) mod w in
  let fresult := if 0 <? foffset then first - foffset else first in
  let lresult := if 0 <? loffset then last + (w - loffset) else last + w in
  (fresult, lresult).

(** The bin labels ([label='left']): every bucket start from the bucket
    of the earliest timestamp to the bucket of the latest one.  An empty
    axis has no bins. *)
Definition bin_labels (w : Z) (ts : list Z) : list Z :=
  match ts with
  | [] => []
  | t0 :: rest =>
      let (fresult, lresult) := range_edges w (series_min t0 rest) (series_max t0 rest) in
      date_range fresult w (Z.to_nat ((lresult - fresult) / w))
  end.

(** The rows of the bin labelled [b]: the half-open interval
    [b <= timestamp < b + w]. *)
Definition in_bin (w b : Z) (r : Row) : bool :=
  (b <=? timestamp r) && (timestamp r <? b + w).

Definition bin_rows (w b : Z) (df : DataFrame) : DataFrame := filter (in_bin w b) df.

Definition mean_row (w : Z) (df : DataFrame) (b : Z) : Row :=
  let grp := bin_rows w b df in
  mkRow b
    (group_mean (map col_pH grp))
    (group_mean (map col_TDS grp))
    (group_mean (map col_Depth grp))
    (group_mean (map col_FlowInd grp)).

(** [df.resample(w, on='timestamp').agg({param: 'mean' ...}).reset_index()] *)
Definition resample_mean (w : Z) (df : DataFrame) : DataFrame :=
  let sorted := sort_values df in
  map (mean_row w sorted) (bin_labels w (map timestamp sorted)).

End Pandas.

(** ** The JSON document of the data store

    [df_agg.to_json(date_format='iso', orient='split')] writes the
    frame as [{"columns": .., "index": .., "data": ..}].  The document
    is kept as its tokens: a timestamp is an ISO 8601 string with
    millisecond precision (the default [date_unit]), held as the
    milliseconds it denotes; a float is a decimal numeral with at most
    10 decimals (the default [double_precision]) or [null].
    [pd.read_json] reads a numeral back with its fast decoder (the
    default [precise_float=False]), which computes in binary64 and is
    not always the float nearest to the numeral. *)

(** A number token: [null], or the numeral [-]whole.frac[e exponent]
    with the sign [neg], the integer part [whole], the digits after the
    point read as the number [frac] and written with [decimals] digits,
    and the exponent when the numeral has one. *)
Inductive json_number : Type :=
  | JNull
  | JNum (neg : bool) (whole : Z) (frac : Z) (decimals : Z) (exponent : option Z).

Record json_row : Type := mkJsonRow {
  jr_timestamp : Z;
  jr_pH : json_number;
  jr_TDS : json_number;
  jr_Depth : json_number;
  jr_FlowInd : json_number
}.

Record json_split : Type := mkJsonSplit {
  js_columns : list string;
  js_index : list nat;
  js_data : list json_row
}.

Module Json.

(** Outside these thresholds the encoder prints with [%.10g]. *)
Definition thres_max : float := PrimFloat.sub 1e16%float 1%float.
Definition thres_min : float := 0x1.203af9ee75616p-50%float.  (* 1e-15 *)

(** Scale [n / d] by powers of ten until it has ten integer digits:
    the result [(n', d', k)] satisfies [n / d = n' / d' * 10^k] and
    [10^9 <= n' / d' < 10^10].  A binary64 value lies between 10^-324
    and 10^309, so fewer than 400 steps are taken. *)
Fixpoint ten_digits (fuel : nat) (n d k : Z) : Z * Z * Z :=
  match fuel with
  | O => (n, d, k)
  | S fuel' =>
      if n <? d * 10 ^ 9 then ten_digits fuel' (n * 10) d (k - 1)
      else if d * 10 ^ 10 <=? n then ten_digits fuel' n (d * 10) (k + 1)
      else (n, d, k)
  end.

(** [%.10g]: ten significant digits of [m * 2^e]. *)
Definition significant_10 (m : positive) (e : Z) : Z * Z :=
  let n := if 0 <=? e then Z.pos m * 2 ^ e else Z.pos m in
  let d := if 0 <=? e then 1 else 2 ^ (- e) in
  let '(n', d', k) := ten_digits 800 n d 0 in
  let q := Python.div_round_half_even n' d' in
  if q =? 10 ^ 10 then (10 ^ 9, k + 1) else (q, k).

(** [(double)n] for an integer [n]. *)
Definition float_of_Z (n : Z) : float := SF2Prim (binary_normalize prec emax n 0 false).

(** [(unsigned long long)x] for a float [0 <= x]: its integer part. *)
Definition trunc (x : float) : Z :=
  match Prim2SF x with
  | S754_finite false m e => if 0 <=? e then Z.pos m * 2 ^ e else Z.pos m / 2 ^ (- e)
  | _ => 0
  end.

(** The fraction digits of the encoder: [tmp] is the fractional part
    times [10^10] as a float; it is rounded to an integer, a half going
    up when the integer is odd or zero. *)
Definition round_fraction (tmp : float) : Z :=
  let frac := trunc tmp in
  let diff := PrimFloat.sub tmp (float_of_Z frac) in
  if PrimFloat.ltb 0.5%float diff then frac + 1
  else if PrimFloat.eqb diff 0.5%float && ((frac =? 0) || Z.odd frac) then frac + 1
  else frac.

(** Trailing zeros are not written: [frac] loses them and [count], the
    number of digits it is written with, goes down with each. *)
Fixpoint strip_zeros (fuel : nat) (frac count : Z) : Z * Z :=
  match fuel with
  | O => (frac, count)
  | S fuel' =>
      if frac mod 10 =? 0 then strip_zeros fuel' (frac / 10) (count - 1) else (frac, count)
  end.

(** A float cell of the document.  NaN and the infinities are [null].
    A value between the thresholds is written with its integer part
    and up to 10 decimals, computed in binary64 as the encoder does;
    another value is written by [%.10g], with one digit before the
    point and an exponent. *)
Definition encode_double (x : float) : json_number :=
  match Prim2SF x with
  | S754_nan => JNull
  | S754_infinity _ => JNull
  | S754_zero _ => JNum false 0 0 1 None
  | S754_finite s m e =>
      let value := PrimFloat.abs x in
      if PrimFloat.ltb thres_max value || PrimFloat.ltb value thres_min
      then
        let (q, k) := significant_10 m e in
        let (frac, count) :=
          if q mod 10 ^ 9 =? 0 then (0, 0) else strip_zeros 9 (q mod 10 ^ 9) 9 in
        JNum s (q / 10 ^ 9) frac count (Some (k + 9))
      else
        let whole := trunc value in
        let frac :=
          round_fraction
            (PrimFloat.mul (PrimFloat.sub value (float_of_Z whole)) 1e10%float) in
        let (whole, frac) := if 10 ^ 10 <=? frac then (whole + 1, 0) else (whole, frac) in
        if frac =? 0 then JNum s whole 0 1 None
        else let (frac, count) := strip_zeros 10 frac 10 in JNum s whole frac count None
  end.

(** The decoder's table of negative powers of ten: the float nearest
    to [10^-k]. *)
Definition g_pow10 (k : Z) : float :=
  SF2Prim (SFdiv prec emax (S754_finite false 1 0) (S754_finite false (Z.to_pos (10 ^ k)) 0)).

(** [pow(10.0, e)], taken as the float nearest to [10^e]. *)
Definition pow10 (e : Z) : float :=
  if 0 <=? e then float_of_Z (10 ^ e) else g_pow10 (- e).

(** [createDouble] of the fast decoder. *)
Definition createDouble (intNeg intValue frcValue : float) (frcDecimalCount : Z) : float :=
  PrimFloat.mul
    (PrimFloat.add intValue (PrimFloat.mul frcValue (g_pow10 frcDecimalCount))) intNeg.

(** The float the fast decoder reads from a numeral: integer part plus
    fraction digits times a power of ten, in binary64; the decoder
    reads 15 decimals at most. *)
Definition decode_double (j : json_number) : float :=
  match j with
  | JNull => PrimFloat.nan
  | JNum neg whole frac decimals exponent =>
      let (frac, decimals) :=
        if 15 <? decimals then (frac / 10 ^ (decimals - 15), 15) else (frac, decimals) in
      let base :=
        createDouble (if neg then (-1)%float else 1%float)
          (float_of_Z whole) (float_of_Z frac) decimals in
      match exponent with
      | None => base
      | Some e => PrimFloat.mul base (pow10 e)
      end
  end.

Definition encode_row (r : Row) : json_row :=
  mkJsonRow (timestamp r / Pandas.nanos_per_milli)
    (encode_double (col_pH r)) (encode_double (col_TDS r))
    (encode_double (col_Depth r)) (encode_double (col_FlowInd r)).

Definition decode_row (j : json_row) : Row :=
  mkRow (jr_timestamp j * Pandas.nanos_per_milli)
    (decode_double (jr_pH j)) (decode_double (jr_TDS j))
    (decode_double (jr_Depth j)) (decode_double (jr_FlowInd j)).

End Json.

(** [df_agg.columns] *)
Definition frame_columns : list string := "timestamp" :: map param_id PARAMETERS_keys.

(** [df.to_json(date_format='iso', orient='split')] *)
Definition to_json_split (df : DataFrame) : json_split :=
  mkJsonSplit frame_columns (seq 0 (List.length df)) (map Json.encode_row df).

(** [pd.read_json(stored_data, orient='split')]: the frame of the
    document, with its column labels.  (A column of whole numbers
    without a [null] comes back with the dtype int64; its numbers are
    the same.) *)
Definition read_json_split (j : json_split) : list string * DataFrame :=
  (js_columns j, map Json.decode_row (js_data j)).

(** ** Dash components *)

(** A [go.Scatter] trace. *)
Record Scatter : Type := mkScatter {
  sc_x : list Z;
  sc_y : list float;
  sc_name : string;
  sc_color : string
}.

(** The traces of a figure ([fig.data]); the layout is the same for
    every figure the callback builds. *)
Definition Figure : Type := list Scatter.

(** [px.line()]: a figure with one trace that has no point. *)
Definition px_line : Figure := [mkScatter [] [] "" "#636efa"].

(** The data points a figure plots. *)
Definition figure_points (fig : Figure) : nat :=
  list_sum (map (fun t => List.length (sc_x t)) fig).

(** The value of the [parameter-select] dropdown: one key, or a list
    of keys. *)
Inductive Selection : Type :=
  | One (param : Param)
  | Many (params : list Param).

(** The content of the [data-store] component: nothing yet, the empty
    dict, or a JSON document. *)
Inductive store_data : Type :=
  | StoreNone
  | StoreDict
  | StoreJson (doc : json_split).

(** The outputs of [update_dashboard], in the order of its [Output]
    list: figure, table rows, table columns, store, and one card value
    per key of [PARAMETERS]. *)
Record Outputs : Type := mkOutputs {
  out_figure : Figure;
  out_table_data : list Row;
  out_columns : list (string * string);
  out_store : store_data;
  out_values : list string
}.

(** What [dcc.send_data_frame(df.to_excel, name, sheet_name=..,
    index=False)] sends: a workbook of one sheet. *)
Record Download : Type := mkDownload {
  dl_filename : string;
  dl_sheet_name : string;
  dl_columns : list string;
  dl_rows : DataFrame
}.

(** ** The callbacks *)

Definition toggle_custom_date (selected_range : string) : string :=
  if String.eqb selected_range "Custom" then "block" else "none".

(** The time-range step of [update_dashboard]: the bounds
    [(start_time, end_time)] of the window.  [end_time] comes in as
    [df['timestamp'].max()].  A custom bound is [None] when the date
    picker has no date (Python's [None], falsy) and [Some t] when its
    date reads as the instant [t]. *)
Definition select_window (end_time : Z) (time_range : string)
    (custom_start custom_end : option Z) : Z * Z :=
  match String.eqb time_range "Custom", custom_start, custom_end with
  | true, Some s, Some e => (s, e)
  | _, _, _ =>
      (end_time - Pandas.Timedelta_hours (Python.dict_get hours_delta time_range 6), end_time)
  end.

(** The name of a trace. *)
Definition trace_name (c : ParamConfig) : string :=
  if String.eqb (cfg_unit c) "" then cfg_name c
  else cfg_name c ++ " (" ++ cfg_unit c ++ ")".

(** [update_dashboard], on the frame [df] that [get_todays_data()]
    returns.  The result is [None] when the frame is not empty and
    [aggregation] is not one of the aliases [Pandas.to_offset]
    covers. *)
Definition update_dashboard (df : DataFrame) (selected_params : Selection)
    (time_range aggregation : string) (custom_start custom_end : option Z)
    (n_intervals : nat) : option Outputs :=
  match df with
  | [] => Some (mkOutputs px_line [] [] StoreDict (map (fun _ => "--") PARAMETERS_keys))
  | r0 :: rest =>
      let selected_params :=
        match selected_params with One p => [p] | Many ps => ps end in
      let end_time := Pandas.series_max (timestamp r0) (map timestamp rest) in
      let (start_time, end_time) :=
        select_window end_time time_range custom_start custom_end in
      let df_filtered := Pandas.filter_between start_time end_time df in
      match Pandas.to_offset aggregation with
      | None => None
      | Some w =>
          let df_agg := Pandas.resample_mean w df_filtered in
          let fig :=
            map (fun param =>
                   let param_config := PARAMETERS param in
                   mkScatter (map timestamp df_agg) (map (cell param) df_agg)
                     (trace_name param_config) (cfg_color param_config))
                selected_params in
          let table_data := df_agg in
          let columns := map (fun i => (i, i)) frame_columns in
          let latest_row := last df r0 in
          let latest_values :=
            map (fun param => Python.format_2f (cell param latest_row)) PARAMETERS_keys in
          let stored_data := StoreJson (to_json_split df_agg) in
          Some (mkOutputs fig table_data columns stored_data latest_values)
      end
  end.

(** [export_data]; [now] is the ["%Y%m%d_%H%M"] rendering of the
    current time.  [None] is Python's [None]: nothing is downloaded. *)
Definition export_data (n_clicks : option nat) (stored_data : store_data)
    (now : string) : option Download :=
  match n_clicks, stored_data with
  | Some (S _), StoreJson doc =>
      let (columns, df) := read_json_split doc in
      Some (mkDownload ("water_quality_data_" ++ now ++ ".xlsx") "Data" columns df)
  | _, _ => None
  end.

(** The browser session.  The [data-store] component holds what the
    last run of [update_dashboard] wrote to it, and [export_data]
    receives that content as its [State].  A step is [None] for a
    refresh this development does not cover: a non-empty frame with a
    string outside the aliases of [Pandas.to_offset]. *)
Inductive event : Type :=
  | Refresh (df : DataFrame) (selected_params : Selection)
      (time_range aggregation : string) (custom_start custom_end : option Z)
      (n_intervals : nat)
  | ExportClick (n_clicks : option nat) (now : string).

Definition step (store : store_data) (e : event) : option (store_data * option Download) :=
  match e with
  | Refresh df selected_params time_range aggregation custom_start custom_end n_intervals =>
      match update_dashboard df selected_params time_range aggregation
              custom_start custom_end n_intervals with
      | Some out => Some (out_store out, None)
      | None => None
      end
  | ExportClick n_clicks now => Some (store, export_data n_clicks store now)
  end.

(** ** Sample frames *)

Module Samples.

Definition t0900 : Z := 1730106000000000000.  (* 2024-10-28 09:00:00 *)
Definition minutes (n : Z) : Z := n * Pandas.nanos_per_minute.

Definition reading (t : Z) (v : float) : Row := mkRow t v v v v.

(** The scenario of the specification: 09:00, 09:05 and 09:15. *)
Definition scenario : DataFrame :=
  [ reading t0900 7; reading (t0900 + minutes 5) 7.2;
    reading (t0900 + minutes 15) 6.8 ]%float.

(** Two readings 25 minutes apart: no reading falls in 09:10-09:20. *)
Definition gap : DataFrame :=
  [ reading t0900 7; reading (t0900 + minutes 25) 8 ]%float.

(** Seven readings five minutes apart, summing to 29. *)
Definition seven : DataFrame :=
  [ reading t0900 5; reading (t0900 + minutes 5) 4; reading (t0900 + minutes 10) 4;
    reading (t0900 + minutes 15) 4; reading (t0900 + minutes 20) 4;
    reading (t0900 + minutes 25) 4; reading (t0900 + minutes 30) 4 ]%float.

(** Three readings in one ten-minute bucket with mean 4/3. *)
Definition thirds : DataFrame :=
  [ reading t0900 1; reading (t0900 + minutes 3) 1; reading (t0900 + minutes 6) 2 ]%float.


(** One reading whose pH is missing. *)
Definition missing_pH : DataFrame :=
  [ mkRow t0900 PrimFloat.nan 120 2 3 ]%float.

End Samples.

(** ** Notions the properties are stated with *)

(** The card [f"{param}-value"] among the outputs. *)
Definition card (p : Param) (out : Outputs) : string :=
  match p with
  | pH => nth 0 (out_values out) ""
  | TDS => nth 1 (out_values out) ""
  | Depth => nth 2 (out_values out) ""
  | FlowInd => nth 3 (out_values out) ""
  end.

(** The number of readings of [df] in the bucket starting at [b] that
    have a value in column [p]. *)
Definition bin_count (w : Z) (df : DataFrame) (p : Param) (b : Z) : nat :=
  List.length (Pandas.observed (map (cell p) (Pandas.bin_rows w b df))).




(** The anchor of the buckets of [df]: midnight of the day of its
    earliest timestamp. *)
Definition resample_origin (df : DataFrame) : Z :=
  match map timestamp df with
  | [] => 0
  | t0 :: rest => Pandas.normalize (Pandas.series_min t0 rest)
  end.

(** A float that is neither NaN nor infinite. *)
Definition finite (x : float) : bool :=
  match Prim2SF x with
  | S754_zero _ | S754_finite _ _ _ => true
  | _ => false
  end.

(** *** Notions for the rounding of a mean *)

(** The smallest exponent of a binary64 float. *)
Definition emin64 : Z := -1074.

(** The number a finite float stands for; 0 for a NaN or an infinite
    one. *)
Definition value (x : float) : Q :=
  match Prim2SF x with
  | S754_finite s m e =>
      ((if s then - inject_Z (Z.pos m) else inject_Z (Z.pos m)) * 2 ^ e)%Q
  | _ => 0%Q
  end.

(** Half a unit in the last place of a finite float; for a zero, half
    the smallest positive float. *)
Definition half_ulp (x : float) : Q :=
  match Prim2SF x with
  | S754_finite _ _ e => (2 ^ (e - 1))%Q
  | _ => (2 ^ (emin64 - 1))%Q
  end.




Definition is_digit (c : ascii) : bool :=
  (48 <=? nat_of_ascii c)%nat && (nat_of_ascii c <=? 57)%nat.

(** [s] is one or more digits, a point, and exactly two digits. *)
Fixpoint unsigned_two_decimals (s : string) : bool :=
  match s with
  | EmptyString => false
  | String c rest =>
      is_digit c &&
      match rest with
      | String "." (String d1 (String d2 EmptyString)) => is_digit d1 && is_digit d2
      | _ => unsigned_two_decimals rest
      end
  end.

(** [s] is a decimal numeral with exactly two decimals, with or
    without a minus sign. *)
Definition two_decimals (s : string) : bool :=
  match s with
  | String "-" rest => unsigned_two_decimals rest
  | _ => unsigned_two_decimals s
  end.

Fixpoint all_digits (s : string) : bool :=
  match s with
  | EmptyString => true
  | String c rest => is_digit c && all_digits rest
  end.

(** The number of decimals a number token is written with. *)
Definition decimals_of (j : json_number) : Z :=
  match j with
  | JNull => 0
  | JNum _ _ _ decimals _ => decimals
  end.

(** A float cell after it went through the JSON document. *)
Definition json_round_trip (x : float) : float :=
  Json.decode_double (Json.encode_double x).

(** A row after it went through the JSON document. *)
Definition row_round_trip (r : Row) : Row :=
  mkRow (timestamp r)
    (json_round_trip (col_pH r)) (json_round_trip (col_TDS r))
    (json_round_trip (col_Depth r)) (json_round_trip (col_FlowInd r)).

(** The frame is in timestamp order. *)
Definition time_ordered (df : DataFrame) : Prop :=
  StronglySorted (fun a b => timestamp a <= timestamp b) df.

(** The aliases of the aggregation dropdown. *)
Definition offered (aggregation : string) : Prop :=
  In aggregation (map snd AGGREGATIONS).

(** ** The rest of [main.py] *)

(** A component of the layout: a text child, or an element with its
    [id], [className], [style] and children. *)
#[warnings="-register-all"] Inductive Component : Type :=
  | Text (s : string)
  | Element (tag : string) (id : option string) (className : string)
      (style : list (string * string)) (children : list Component).

(** [PARAMETERS[key]]; [None] is the [KeyError]. *)
Definition PARAMETERS_item (key : string) : option ParamConfig :=
  option_map PARAMETERS (find (fun p => String.eqb (param_id p) key) PARAMETERS_keys).

(** [create_metric_card(title, icon_class, param_key)] *)
Definition create_metric_card (title icon_class param_key : string) : option Component :=
  match PARAMETERS_item param_key with
  | None => None
  | Some config =>
      Some
        (Element "Card" None "h-100" []
           [ Element "CardBody" None "" []
               [ Element "Div" None "d-flex align-items-center mb-2" []
                   [ Element "I" None (icon_class ++ " text-primary")%string [("fontSize", "24px")] [];
                     Element "H5" None "mb-0 ms-2" [] [Text title] ];
                 Element "Div" None "d-flex align-items-baseline" []
                   [ Element "H3" (Some (param_key ++ "-value")%string) "mb-0" [] [Text "--"];
                     Element "Small" None "text-muted ms-1" [] [Text (cfg_unit config)] ] ] ])
  end.

(** The ids of a component tree, in document order. *)
Fixpoint component_ids (c : Component) : list string :=
  match c with
  | Text _ => []
  | Element _ id _ _ children =>
      match id with Some i => [i] | None => [] end ++ flat_map component_ids children
  end.

(** The children of the elements of a tree that carry the id [i]. *)
Fixpoint children_of_id (i : string) (c : Component) : list (list Component) :=
  match c with
  | Text _ => []
  | Element _ id _ _ children =>
      match id with
      | Some j => if String.eqb j i then [children] else []
      | None => []
      end ++ flat_map (children_of_id i) children
  end.

(** The component ids [update_dashboard] writes its card values to:
    [f"{param}-value" for param in PARAMETERS.keys()]. *)
Definition value_output_ids : list string :=
  map (fun p => (param_id p ++ "-value")%string) PARAMETERS_keys.

(** [selected_params] after the [isinstance] test of
    [update_dashboard]. *)
Definition selection_list (selected_params : Selection) : list Param :=
  match selected_params with
  | One p => [p]
  | Many ps => ps
  end.

(** [df_filtered]: the frame [update_dashboard] aggregates. *)
Definition window_frame (df : DataFrame) (time_range : string)
    (custom_start custom_end : option Z) : DataFrame :=
  match df with
  | [] => []
  | r0 :: rest =>
      let (start_time, end_time) :=
        select_window (Pandas.series_max (timestamp r0) (map timestamp rest))
          time_range custom_start custom_end in
      Pandas.filter_between start_time end_time df
  end.

(** The store after a sequence of events. *)
Definition run (store : store_data) (events : list event) : option store_data :=
  fold_left
    (fun s e => match s with Some store => option_map fst (step store e) | None => None end)
    events (Some store).

(** An event the controls of the page can produce: the aggregation of
    a refresh is one of the dropdown. *)
Definition offered_event (e : event) : Prop :=
  match e with
  | Refresh _ _ _ aggregation _ _ _ => offered aggregation
  | ExportClick _ _ => True
  end.

(** ** Checks on the samples *)

Example format_2f_samples :
  map Python.format_2f [0.125; 0.375; 99.5; -0.25; 1234.5; 7; -0]%float
  = ["0.12"; "0.38"; "99.50"; "-0.25"; "1234.50"; "7.00"; "-0.00"].
Proof. vm_compute. reflexivity. Qed.

Example format_2f_special :
  map Python.format_2f [PrimFloat.nan; PrimFloat.infinity; PrimFloat.neg_infinity]
  = ["nan"; "inf"; "-inf"].
Proof. vm_compute. reflexivity. Qed.

Example two_decimals_samples :
  map two_decimals ["7.00"; "-0.25"; "nan"; "--"; "7.0"; ".50"; "1.234"]
  = [true; true; false; false; false; false; false].
Proof. vm_compute. reflexivity. Qed.

(** The document's numerals: up to 10 decimals, or [%.10g] at the two
    ends of the binary64 range. *)
Example encode_double_samples :
  map Json.encode_double
    [0.125; 1.3333333333333333; -0.001; 0.7; 7; 0x1.fffffffffffffp+1023;
     0x0.0000000000001p-1022; 1e22]%float
  = [JNum false 0 125 3 None; JNum false 1 3333333333 10 None; JNum true 0 1 3 None;
     JNum false 0 7 1 None; JNum false 7 0 1 None; JNum false 1 797693135 9 (Some 308);
     JNum false 4 940656458 9 (Some (-324)); JNum false 1 0 0 (Some 22)].
Proof. vm_compute. reflexivity. Qed.

(** What the fast decoder reads: 0.7 comes back one unit in the last
    place higher. *)
Example decode_double_samples :
  map Json.decode_double
    [JNum false 0 125 3 None; JNum false 7 1 1 None; JNum false 0 7 1 None;
     JNum false 1 3333333333 10 None; JNum false 1 0 0 (Some 22); JNull]
  = [0.125; 7.1; 0.7000000000000001; 0x1.5555555530aeep+0; 1e22; PrimFloat.nan]%float.
Proof. vm_compute. reflexivity. Qed.

(** The scenario of the specification: the buckets 09:00 and 09:10. *)
Example scenario_buckets :
  map timestamp (Pandas.resample_mean (Samples.minutes 10) Samples.scenario)
  = [Samples.t0900; Samples.t0900 + Samples.minutes 10].
Proof. vm_compute. reflexivity. Qed.

Example scenario_second_mean :
  map col_pH (Pandas.resample_mean (Samples.minutes 10) Samples.scenario)
  = [7.1; 6.8]%float.
Proof. vm_compute. reflexivity. Qed.

(** A custom window from 09:00 to 09:05 keeps the first two readings
    of the scenario: one bucket, with the mean 7.1. *)
Example scenario_custom_window :
  option_map (fun out => map (fun r => (timestamp r, col_pH r)) (out_table_data out))
    (update_dashboard Samples.scenario (One pH) "Custom" "10T"
       (Some Samples.t0900) (Some (Samples.t0900 + Samples.minutes 5)) 0)
  = Some [(Samples.t0900, 7.1%float)].
Proof. vm_compute. reflexivity. Qed.

(** ** Series and lists *)

Lemma series_max_spec (xs : list Z) (x0 : Z) :
  In (Pandas.series_max x0 xs) (x0 :: xs) /\
  forall x, In x (x0 :: xs) -> x <= Pandas.series_max x0 xs.
Proof.
  unfold Pandas.series_max. revert x0.
  induction xs as [|y ys IH]; intros x0; simpl.
  - split; [now left | intros x [<- | []]; lia].
  - destruct (IH (Z.max x0 y)) as [Hin Hle]. split.
    + destruct Hin as [Hm | Hin]; [|now right; right].
      rewrite <- Hm. destruct (Z.max_spec x0 y) as [[_ ->] | [_ ->]]; auto.
    + intros x [<- | [<- | Hx]].
      * specialize (Hle (Z.max x0 y) (or_introl eq_refl)). lia.
      * specialize (Hle (Z.max x0 y) (or_introl eq_refl)). lia.
      * apply Hle. now right.
Qed.

Lemma series_min_spec (xs : list Z) (x0 : Z) :
  In (Pandas.series_min x0 xs) (x0 :: xs) /\
  forall x, In x (x0 :: xs) -> Pandas.series_min x0 xs <= x.
Proof.
  unfold Pandas.series_min. revert x0.
  induction xs as [|y ys IH]; intros x0; simpl.
  - split; [now left | intros x [<- | []]; lia].
  - destruct (IH (Z.min x0 y)) as [Hin Hle]. split.
    + destruct Hin as [Hm | Hin]; [|now right; right].
      rewrite <- Hm. destruct (Z.min_spec x0 y) as [[_ ->] | [_ ->]]; auto.
    + intros x [<- | [<- | Hx]].
      * specialize (Hle (Z.min x0 y) (or_introl eq_refl)). lia.
      * specialize (Hle (Z.min x0 y) (or_introl eq_refl)). lia.
      * apply Hle. now right.
Qed.


Lemma list_sum_map_zero {A : Type} (f : A -> nat) (l : list A) :
  (forall a, In a l -> f a = 0%nat) -> list_sum (map f l) = 0%nat.
Proof.
  induction l as [|a l IH]; simpl; intros H; [reflexivity|].
  rewrite (H a (or_introl eq_refl)), IH; auto.
Qed.

Lemma Permutation_filter_compat {A : Type} (f : A -> bool) (l l' : list A) :
  Permutation l l' -> Permutation (filter f l) (filter f l').
Proof.
  induction 1 as [| x l l' _ IH | x y l | l l' l'' _ IH1 _ IH2]; simpl.
  - constructor.
  - destruct (f x); [now constructor | assumption].
  - destruct (f x), (f y); try reflexivity. apply perm_swap.
  - now transitivity (filter f l').
Qed.

(** ** The sort of the grouper *)

Lemma insert_row_perm (r : Row) (l : DataFrame) :
  Permutation (Pandas.insert_row r l) (r :: l).
Proof.
  induction l as [|x xs IH]; simpl; [reflexivity|].
  destruct (timestamp r <=? timestamp x); [reflexivity|].
  rewrite IH. apply perm_swap.
Qed.

Lemma sort_values_perm (df : DataFrame) : Permutation (Pandas.sort_values df) df.
Proof.
  induction df as [|r df IH]; simpl; [constructor|].
  rewrite insert_row_perm. now constructor.
Qed.

Lemma sort_values_nil (df : DataFrame) : Pandas.sort_values df = [] -> df = [].
Proof.
  intros H. apply Permutation_nil. rewrite <- H. apply sort_values_perm.
Qed.

(** ** Bins *)

Section Bins.

Variable w : Z.
Hypothesis w_pos : 0 < w.

Lemma date_range_length (n : nat) (s : Z) : List.length (Pandas.date_range s w n) = n.
Proof. revert s. induction n as [|n IH]; intros s; simpl; [reflexivity | now rewrite IH]. Qed.

Lemma date_range_In (n : nat) (s b : Z) :
  In b (Pandas.date_range s w n) <-> exists k, 0 <= k < Z.of_nat n /\ b = s + k * w.
Proof.
  revert s. induction n as [|n IH]; intros s; simpl.
  - split; [intros [] | intros (k & Hk & _); lia].
  - rewrite IH. split.
    + intros [<- | (k & Hk & ->)].
      * exists 0. lia.
      * exists (k + 1). lia.
    + intros (k & Hk & ->). destruct (Z.eq_dec k 0) as [-> | Hk0].
      * left. lia.
      * right. exists (k - 1). lia.
Qed.

Lemma date_range_lower (n : nat) (s b : Z) : In b (Pandas.date_range s w n) -> s <= b.
Proof. rewrite date_range_In. intros (k & Hk & ->). nia. Qed.

Lemma date_range_sorted (n : nat) (s : Z) : StronglySorted Z.lt (Pandas.date_range s w n).
Proof.
  revert s. induction n as [|n IH]; intros s; simpl; constructor.
  - apply IH.
  - apply Forall_forall. intros b Hb. apply date_range_lower in Hb. lia.
Qed.


Lemma range_edges_eq (first last : Z) :
  Pandas.range_edges w first last
  = (Pandas.normalize first + w * ((first - Pandas.normalize first) / w),
     Pandas.normalize first + w * ((last - Pandas.normalize first) / w + 1)).
Proof.
  unfold Pandas.range_edges. set (o := Pandas.normalize first).
  assert (Hf := Z.div_mod (first - o) w ltac:(lia)).
  assert (Hl := Z.div_mod (last - o) w ltac:(lia)).
  assert (Hfb := Z.mod_pos_bound (first - o) w w_pos).
  assert (Hlb := Z.mod_pos_bound (last - o) w w_pos).
  f_equal.
  - destruct (Z.ltb_spec 0 ((first - o) mod w)); lia.
  - destruct (Z.ltb_spec 0 ((last - o) mod w)); lia.
Qed.

(** The first bucket and the number of buckets of a non-empty axis. *)
Lemma bin_labels_eq (t0 : Z) (rest : list Z) :
  let o := Pandas.normalize (Pandas.series_min t0 rest) in
  let q1 := (Pandas.series_min t0 rest - o) / w in
  let q2 := (Pandas.series_max t0 rest - o) / w in
  Pandas.bin_labels w (t0 :: rest)
  = Pandas.date_range (o + w * q1) w (Z.to_nat (q2 - q1 + 1)).
Proof.
  intros o q1 q2. unfold Pandas.bin_labels. rewrite range_edges_eq.
  fold o. fold q1. fold q2. f_equal. f_equal.
  replace (o + w * (q2 + 1) - (o + w * q1)) with ((q2 - q1 + 1) * w) by ring.
  apply Z.div_mul. lia.
Qed.

Lemma min_le_max (t0 : Z) (rest : list Z) :
  Pandas.series_min t0 rest <= Pandas.series_max t0 rest.
Proof.
  destruct (series_min_spec rest t0) as [_ Hmin].
  destruct (series_max_spec rest t0) as [_ Hmax].
  specialize (Hmin t0 (or_introl eq_refl)). specialize (Hmax t0 (or_introl eq_refl)). lia.
Qed.

(** The bins of a non-empty axis: the first one holds the earliest
    timestamp, the last one the latest. *)
Lemma bin_labels_span (t0 : Z) (rest : list Z) :
  exists s n,
    Pandas.bin_labels w (t0 :: rest) = Pandas.date_range s w (S n) /\
    (exists k, 0 <= k /\ s = Pandas.normalize (Pandas.series_min t0 rest) + k * w) /\
    s <= Pandas.series_min t0 rest < s + w /\
    s + Z.of_nat n * w <= Pandas.series_max t0 rest < s + Z.of_nat (S n) * w.
Proof.
  rewrite bin_labels_eq.
  set (tmin := Pandas.series_min t0 rest). set (tmax := Pandas.series_max t0 rest).
  set (o := Pandas.normalize tmin).
  assert (Hmm : tmin <= tmax) by apply min_le_max.
  assert (Ho : 0 <= tmin - o).
  { unfold o, Pandas.normalize.
    assert (H := Z.mod_pos_bound tmin Pandas.nanos_per_day eq_refl). lia. }
  assert (Hq : (tmin - o) / w <= (tmax - o) / w) by (apply Z.div_le_mono; lia).
  assert (Hq0 : 0 <= (tmin - o) / w) by (apply Z.div_pos; lia).
  assert (Hf := Z.div_mod (tmin - o) w ltac:(lia)).
  assert (Hl := Z.div_mod (tmax - o) w ltac:(lia)).
  assert (Hfb := Z.mod_pos_bound (tmin - o) w w_pos).
  assert (Hlb := Z.mod_pos_bound (tmax - o) w w_pos).
  exists (o + w * ((tmin - o) / w)), (Z.to_nat ((tmax - o) / w - (tmin - o) / w)).
  split; [|split; [|split]].
  - f_equal. rewrite <- Z2Nat.inj_succ by lia. f_equal; lia.
  - exists ((tmin - o) / w). split; [assumption | ring].
  - lia.
  - rewrite Nat2Z.inj_succ, Z2Nat.id by lia. nia.
Qed.

End Bins.

(** ** The resampled frame *)

Lemma resample_timestamps (w : Z) (df : DataFrame) :
  map timestamp (Pandas.resample_mean w df)
  = Pandas.bin_labels w (map timestamp (Pandas.sort_values df)).
Proof.
  unfold Pandas.resample_mean. rewrite map_map. simpl. apply map_id.
Qed.

Lemma resample_row (w : Z) (df : DataFrame) (row : Row) :
  In row (Pandas.resample_mean w df) ->
  row = Pandas.mean_row w (Pandas.sort_values df) (timestamp row).
Proof.
  unfold Pandas.resample_mean. rewrite in_map_iff. intros (b & <- & _). reflexivity.
Qed.

Lemma resample_cell (w : Z) (df : DataFrame) (row : Row) (p : Param) :
  In row (Pandas.resample_mean w df) ->
  cell p row
  = Pandas.group_mean
      (map (cell p) (Pandas.bin_rows w (timestamp row) (Pandas.sort_values df))).
Proof.
  intros H. rewrite (resample_row w df row H) at 1. destruct p; reflexivity.
Qed.

(** The time axis of the sorted frame has the timestamps of the frame. *)
Lemma axis_In (df : DataFrame) (t : Z) :
  In t (map timestamp (Pandas.sort_values df)) <-> In t (map timestamp df).
Proof.
  split; apply Permutation_in; [|symmetry]; apply Permutation_map, sort_values_perm.
Qed.

Lemma axis_cons (r : Row) (df : DataFrame) :
  exists t0 rest, map timestamp (Pandas.sort_values (r :: df)) = t0 :: rest.
Proof.
  destruct (Pandas.sort_values (r :: df)) as [|x xs] eqn:E.
  - apply sort_values_nil in E. discriminate.
  - now exists (timestamp x), (map timestamp xs).
Qed.

Lemma axis_extremes (df : DataFrame) (t0 : Z) (rest : list Z) :
  map timestamp (Pandas.sort_values df) = t0 :: rest ->
  (exists r, In r df /\ timestamp r = Pandas.series_min t0 rest) /\
  (exists r, In r df /\ timestamp r = Pandas.series_max t0 rest) /\
  (forall r, In r df ->
     Pandas.series_min t0 rest <= timestamp r <= Pandas.series_max t0 rest).
Proof.
  intros E.
  destruct (series_min_spec rest t0) as [Hmin_in Hmin].
  destruct (series_max_spec rest t0) as [Hmax_in Hmax].
  rewrite <- E in Hmin_in, Hmax_in.
  apply (proj1 (axis_In _ _)), in_map_iff in Hmin_in.
  apply (proj1 (axis_In _ _)), in_map_iff in Hmax_in.
  destruct Hmin_in as (r1 & E1 & H1). destruct Hmax_in as (r2 & E2 & H2).
  split; [now exists r1|]. split; [now exists r2|].
  intros r Hr.
  assert (Ht : In (timestamp r) (t0 :: rest)).
  { rewrite <- E. apply axis_In. now apply in_map. }
  split; [now apply Hmin | now apply Hmax].
Qed.

(** The anchor does not depend on the order of the frame. *)
Lemma resample_origin_sorted (df : DataFrame) :
  resample_origin (Pandas.sort_values df) = resample_origin df.
Proof.
  unfold resample_origin.
  destruct (map timestamp (Pandas.sort_values df)) as [|t0 rest] eqn:E.
  - destruct df as [|r df]; [reflexivity|].
    destruct (axis_cons r df) as (t & l & E'). congruence.
  - destruct (map timestamp df) as [|u0 urest] eqn:E'.
    + destruct df; [discriminate E | discriminate E'].
    + f_equal. apply Z.le_antisymm.
      * destruct (series_min_spec rest t0) as [_ H]. apply H. rewrite <- E.
        apply axis_In. rewrite E'. apply series_min_spec.
      * destruct (series_min_spec urest u0) as [_ H]. apply H. rewrite <- E'.
        apply axis_In. rewrite E. apply series_min_spec.
Qed.


Lemma bin_rows_sorted_nil (w : Z) (df : DataFrame) (b : Z) :
  Pandas.bin_rows w b df = [] -> Pandas.bin_rows w b (Pandas.sort_values df) = [].
Proof.
  intros H. apply Permutation_nil. rewrite <- H.
  symmetry. apply Permutation_filter_compat, sort_values_perm.
Qed.





Lemma StronglySorted_lt_NoDup (l : list Z) : StronglySorted Z.lt l -> NoDup l.
Proof.
  induction 1 as [|a l _ IH Hall]; constructor; [|assumption].
  intros Hin. rewrite Forall_forall in Hall. specialize (Hall a Hin). lia.
Qed.

(** ** The rounding of a float division *)







Lemma loc_record (mrs : shr_record) :
  shr_record_of_loc (shr_m mrs) (loc_of_shr_record mrs) = mrs.
Proof. destruct mrs as [m [|] [|]]; reflexivity. Qed.






















Lemma Qabs_opp_diff (u v : Q) : (Qabs (- u - - v) == Qabs (u - v))%Q.
Proof.
  setoid_replace (- u - - v)%Q with (- (u - v))%Q by ring. apply Qabs_opp.
Qed.


(** ** The aggregator *)

(** *** Exact sums *)






(** *** The values of a bucket *)










(** Seven times the mean of the seven readings is 29 + 3/2^50, within
    the 7/2^51 that the rounding of the mean allows. *)
Example seven_mean_error :
  let mean :=
    col_pH (hd (Samples.reading 0 0%float)
              (Pandas.resample_mean Pandas.nanos_per_hour Samples.seven)) in
  (value mean * 7 - 29 == 3 # 1125899906842624)%Q /\
  (7 * half_ulp mean == 7 # 2251799813685248)%Q.
Proof. split; vm_compute; reflexivity. Qed.



(** C2, as stated, fails: resampling keeps the buckets between the
    first and the last reading.  With readings at 09:00 and 09:25 and
    ten-minute buckets, the bucket 09:10 holds no reading and is a row
    of the output, its cells NaN. *)
Lemma empty_bucket_has_row :
  exists row,
    In row (Pandas.resample_mean (Samples.minutes 10) Samples.gap) /\
    timestamp row = Samples.t0900 + Samples.minutes 10 /\
    Pandas.bin_rows (Samples.minutes 10) (timestamp row) Samples.gap = [] /\
    cell pH row = PrimFloat.nan.
Proof.
  exists (mkRow (Samples.t0900 + Samples.minutes 10)
            PrimFloat.nan PrimFloat.nan PrimFloat.nan PrimFloat.nan).
  split; [|repeat split].
  vm_compute. right. left. reflexivity.
Qed.

(** C2, amended: for every windowed frame and bucket width, every
    reading lies in the bucket of some output row; the rows are the
    consecutive buckets, one bucket width apart; and a row whose bucket
    holds zero readings lies strictly between two readings and has NaN
    in every column (never a zero).  No bucket before the first reading
    or after the last one is a row. *)
Theorem empty_buckets_only_between_readings (w : Z) (df : DataFrame) :
  0 < w ->
  (forall r, In r df ->
     exists row, In row (Pandas.resample_mean w df) /\
                 Pandas.in_bin w (timestamp row) r = true) /\
  (exists b0, map timestamp (Pandas.resample_mean w df)
              = Pandas.date_range b0 w (List.length (Pandas.resample_mean w df))) /\
  (forall row, In row (Pandas.resample_mean w df) ->
     Pandas.bin_rows w (timestamp row) df = [] ->
     (forall p, cell p row = PrimFloat.nan) /\
     exists r1 r2, In r1 df /\ In r2 df /\
       timestamp r1 < timestamp row /\ timestamp row + w <= timestamp r2).
Proof.
  intros Hw. destruct df as [|r0 df].
  { split; [intros r []|]. split; [now exists 0|]. intros row []. }
  destruct (axis_cons r0 df) as (t0 & rest & E).
  destruct (bin_labels_span w Hw t0 rest) as (s & n & Hlab & _ & Hlo & Hhi).
  destruct (axis_extremes _ _ _ E) as ((r1 & Hr1 & E1) & (r2 & Hr2 & E2) & Hb).
  assert (Hts : map timestamp (Pandas.resample_mean w (r0 :: df))
                = Pandas.date_range s w (S n)).
  { now rewrite resample_timestamps, E. }
  assert (Hlen : List.length (Pandas.resample_mean w (r0 :: df)) = S n).
  { now rewrite <- (length_map timestamp), Hts, date_range_length. }
  split; [|split].
  - intros r Hr. specialize (Hb r Hr).
    set (k := (timestamp r - s) / w).
    assert (Hk := Z.div_mod (timestamp r - s) w ltac:(lia)).
    assert (Hkb := Z.mod_pos_bound (timestamp r - s) w Hw).
    assert (Hk0 : 0 <= k) by (apply Z.div_pos; lia).
    assert (Hin : In (s + k * w) (map timestamp (Pandas.resample_mean w (r0 :: df)))).
    { rewrite Hts. apply date_range_In. exists k. split; [|reflexivity]. fold k in Hk. nia. }
    apply in_map_iff in Hin. destruct Hin as (row & Erow & Hrow).
    exists row. split; [assumption|].
    unfold Pandas.in_bin. rewrite Erow. fold k in Hk.
    apply andb_true_iff. split; [apply Z.leb_le | apply Z.ltb_lt]; lia.
  - exists s. now rewrite Hlen.
  - intros row Hrow Hempty. split.
    + intros p. rewrite (resample_cell w _ row p Hrow).
      now rewrite (bin_rows_sorted_nil w _ _ Hempty).
    + assert (Hin : In (timestamp row) (Pandas.date_range s w (S n))).
      { rewrite <- Hts. now apply in_map. }
      apply date_range_In in Hin. destruct Hin as (k & Hk & Ek).
      assert (Hout : forall r, In r (r0 :: df) -> Pandas.in_bin w (timestamp row) r = false).
      { intros r Hr. destruct (Pandas.in_bin w (timestamp row) r) eqn:Ein; [|reflexivity].
        assert (Hin : In r (Pandas.bin_rows w (timestamp row) (r0 :: df))).
        { apply filter_In. now split. }
        rewrite Hempty in Hin. destruct Hin. }
      assert (H1 := Hout r1 Hr1). assert (H2 := Hout r2 Hr2).
      unfold Pandas.in_bin in H1, H2. rewrite andb_false_iff, Z.leb_gt, Z.ltb_ge in H1, H2.
      exists r1, r2. repeat split; try assumption; nia.
Qed.

Lemma empty_buckets_only_between_readings_witness :
  0 < Samples.minutes 10 /\
  exists b0, map timestamp (Pandas.resample_mean (Samples.minutes 10) Samples.gap)
             = Pandas.date_range b0 (Samples.minutes 10)
                 (List.length (Pandas.resample_mean (Samples.minutes 10) Samples.gap)).
Proof.
  split; [reflexivity|].
  apply (empty_buckets_only_between_readings (Samples.minutes 10) Samples.gap). reflexivity.
Defined.

Lemma normalize_day_multiple (t : Z) : (Pandas.nanos_per_day | Pandas.normalize t).
Proof.
  unfold Pandas.normalize. exists (t / Pandas.nanos_per_day).
  assert (H := Z.div_mod t Pandas.nanos_per_day ltac:(discriminate)). lia.
Qed.

(** The bucket starts of a non-empty frame, counted from its anchor. *)
Lemma resample_labels_from_origin (w : Z) (r0 : Row) (df : DataFrame) :
  0 < w ->
  exists k0 n, 0 <= k0 /\
    map timestamp (Pandas.resample_mean w (r0 :: df))
    = Pandas.date_range (resample_origin (r0 :: df) + k0 * w) w n.
Proof.
  intros Hw. destruct (axis_cons r0 df) as (t0 & rest & E).
  destruct (bin_labels_span w Hw t0 rest) as (s & n & Hlab & (k0 & Hk0 & Es) & _).
  exists k0, (S n). split; [assumption|].
  rewrite resample_timestamps, E, Hlab, Es. f_equal. f_equal.
  rewrite <- resample_origin_sorted. unfold resample_origin. now rewrite E.
Qed.

(** C5: for every frame and bucket width, the bucket starts of the
    output are strictly ascending, hence without duplicates, and each
    is a whole number of bucket widths after the anchor, midnight of
    the day of the earliest reading.  For a width that divides the day
    (every width the dashboard offers) each bucket start is a multiple
    of the width counted from the epoch as well. *)
Theorem bucket_starts_aligned_and_ascending (w : Z) (df : DataFrame) :
  0 < w ->
  StronglySorted Z.lt (map timestamp (Pandas.resample_mean w df)) /\
  NoDup (map timestamp (Pandas.resample_mean w df)) /\
  (forall row, In row (Pandas.resample_mean w df) ->
     exists k, 0 <= k /\ timestamp row = resample_origin df + k * w) /\
  ((w | Pandas.nanos_per_day) ->
   forall row, In row (Pandas.resample_mean w df) -> timestamp row mod w = 0).
Proof.
  intros Hw.
  assert (Hsorted : StronglySorted Z.lt (map timestamp (Pandas.resample_mean w df))).
  { destruct df as [|r0 df]; [constructor|].
    destruct (resample_labels_from_origin w r0 df Hw) as (k0 & n & _ & ->).
    now apply date_range_sorted. }
  assert (Hmult : forall row, In row (Pandas.resample_mean w df) ->
            exists k, 0 <= k /\ timestamp row = resample_origin df + k * w).
  { destruct df as [|r0 df]; [intros row []|]. intros row Hrow.
    destruct (resample_labels_from_origin w r0 df Hw) as (k0 & n & Hk0 & Hts).
    apply (in_map timestamp) in Hrow. rewrite Hts in Hrow.
    apply date_range_In in Hrow. destruct Hrow as (k & Hk & ->).
    exists (k0 + k). split; [lia | ring]. }
  split; [assumption|]. split; [now apply StronglySorted_lt_NoDup|].
  split; [assumption|].
  intros Hday row Hrow. destruct (Hmult row Hrow) as (k & _ & ->).
  apply Z.mod_divide; [lia|]. apply Z.divide_add_r; [|now apply Z.divide_factor_r].
  destruct df as [|r0 df]; [destruct Hrow|].
  unfold resample_origin. simpl map.
  apply (Z.divide_trans _ _ _ Hday), normalize_day_multiple.
Qed.

Lemma bucket_starts_aligned_and_ascending_witness :
  0 < Samples.minutes 10 /\
  StronglySorted Z.lt
    (map timestamp (Pandas.resample_mean (Samples.minutes 10) Samples.gap)).
Proof.
  split; [reflexivity|].
  apply (bucket_starts_aligned_and_ascending (Samples.minutes 10) Samples.gap). reflexivity.
Defined.

(** ** The callback on a non-empty frame *)

Lemma offered_width (aggregation : string) :
  offered aggregation ->
  exists w, Pandas.to_offset aggregation = Some w /\ 0 < w /\
            (w | Pandas.nanos_per_day) /\ (Pandas.nanos_per_milli | w).
Proof.
  unfold offered. simpl.
  intros [<- | [<- | [<- | [<- | [<- | []]]]]]; eexists; (split; [reflexivity|]);
    (split; [reflexivity|]); split.
  - now exists 144.
  - now exists 600000.
  - now exists 48.
  - now exists 1800000.
  - now exists 24.
  - now exists 3600000.
  - now exists 6.
  - now exists 14400000.
  - now exists 1.
  - now exists 86400000.
Qed.

Lemma update_dashboard_cons (r0 : Row) (rest : DataFrame) (selected_params : Selection)
    (time_range aggregation : string) (custom_start custom_end : option Z)
    (n_intervals : nat) (w : Z) :
  Pandas.to_offset aggregation = Some w ->
  let df := r0 :: rest in
  let window :=
    select_window (Pandas.series_max (timestamp r0) (map timestamp rest))
      time_range custom_start custom_end in
  let df_agg := Pandas.resample_mean w (Pandas.filter_between (fst window) (snd window) df) in
  exists out,
    update_dashboard df selected_params time_range aggregation
      custom_start custom_end n_intervals = Some out /\
    out_table_data out = df_agg /\
    out_figure out
    = map (fun param =>
             mkScatter (map timestamp df_agg) (map (cell param) df_agg)
               (trace_name (PARAMETERS param)) (cfg_color (PARAMETERS param)))
          (match selected_params with One p => [p] | Many ps => ps end) /\
    out_columns out = map (fun i => (i, i)) frame_columns /\
    out_store out = StoreJson (to_json_split df_agg) /\
    out_values out
    = map (fun param => Python.format_2f (cell param (last df r0))) PARAMETERS_keys.
Proof.
  intros Hw df window df_agg. subst df_agg. subst window. subst df.
  unfold update_dashboard. rewrite Hw.
  destruct (select_window _ time_range custom_start custom_end) as [start_time end_time].
  eexists. split; [reflexivity|]. repeat split.
Qed.

Lemma resample_nonempty (w : Z) (df : DataFrame) :
  0 < w -> df <> [] -> Pandas.resample_mean w df <> [].
Proof.
  intros Hw Hdf Hnil. destruct df as [|r0 df]; [now apply Hdf|].
  destruct (axis_cons r0 df) as (t0 & rest & E).
  destruct (bin_labels_span w Hw t0 rest) as (s & n & Hlab & _).
  apply (f_equal (map timestamp)) in Hnil.
  rewrite resample_timestamps, E, Hlab in Hnil. discriminate Hnil.
Qed.

Lemma filter_between_In (left right : Z) (df : DataFrame) (r : Row) :
  In r (Pandas.filter_between left right df)
  <-> In r df /\ left <= timestamp r <= right.
Proof.
  unfold Pandas.filter_between, Pandas.between.
  rewrite filter_In, andb_true_iff, !Z.leb_le. reflexivity.
Qed.

Lemma filter_between_reversed (left right : Z) (df : DataFrame) :
  right < left -> Pandas.filter_between left right df = [].
Proof.
  intros H. destruct (Pandas.filter_between left right df) as [|r l] eqn:E; [reflexivity|].
  assert (Hin : In r (Pandas.filter_between left right df)) by (rewrite E; now left).
  apply filter_between_In in Hin. lia.
Qed.

Lemma figure_points_no_rows (selected : list Param) :
  figure_points
    (map (fun param =>
            mkScatter (map timestamp (@nil Row)) (map (cell param) (@nil Row))
              (trace_name (PARAMETERS param)) (cfg_color (PARAMETERS param)))
         selected) = 0%nat.
Proof.
  unfold figure_points. rewrite map_map. apply list_sum_map_zero. reflexivity.
Qed.

Lemma dict_get_default {V : Type} (d : list (string * V)) (k : string) (v : V) :
  (forall x, ~ In (k, x) d) -> Python.dict_get d k v = v.
Proof.
  induction d as [|[k' x'] d IH]; intros H; cbn [Python.dict_get]; [reflexivity|].
  destruct (String.eqb_spec k' k) as [-> | _].
  - exfalso. apply (H x'). now left.
  - apply IH. intros x Hx. apply (H x). now right.
Qed.

Lemma hours_delta_unknown (time_range : string) :
  (forall label, ~ In (time_range, label) TIME_RANGES) ->
  Python.dict_get hours_delta time_range 6 = 6.
Proof.
  intros H. apply dict_get_default. intros x Hx. unfold hours_delta in Hx.
  cbn [In] in Hx.
  repeat (destruct Hx as [Hx | Hx];
          [injection Hx as <- _; eapply H; cbn [In TIME_RANGES]; eauto 10 |]).
  exact Hx.
Qed.

(** ** The windower *)

(** C4: for every non-empty frame and every range other than
    "Custom", the window ends at the maximum timestamp of the frame and
    starts the range's duration before it: 1 Hour is 1 h, 6 Hours 6 h,
    12 Hours 12 h, 1 Day 24 h, 1 Week 168 h (the labels of
    [TIME_RANGES]), and a range that is not in [TIME_RANGES] takes 6 h.
    A reading is in the windowed frame exactly when its timestamp lies
    between the two bounds, both included, and the table of the
    dashboard is the aggregation of that windowed frame. *)
Theorem named_range_window (r0 : Row) (rest : DataFrame) (time_range : string)
    (custom_start custom_end : option Z) :
  time_range <> "Custom" ->
  let df := r0 :: rest in
  let end_time := Pandas.series_max (timestamp r0) (map timestamp rest) in
  let hours := Python.dict_get hours_delta time_range 6 in
  let start_time := end_time - hours * Pandas.nanos_per_hour in
  (exists r, In r df /\ timestamp r = end_time) /\
  (forall r, In r df -> timestamp r <= end_time) /\
  select_window end_time time_range custom_start custom_end = (start_time, end_time) /\
  (forall label, In (time_range, label) TIME_RANGES ->
     (label = "1 Hour" /\ hours = 1) \/ (label = "6 Hours" /\ hours = 6) \/
     (label = "12 Hours" /\ hours = 12) \/ (label = "1 Day" /\ hours = 24) \/
     (label = "1 Week" /\ hours = 168)) /\
  ((forall label, ~ In (time_range, label) TIME_RANGES) -> hours = 6) /\
  (forall r, In r (Pandas.filter_between start_time end_time df)
             <-> In r df /\ start_time <= timestamp r <= end_time) /\
  (forall selected_params aggregation n_intervals w,
     Pandas.to_offset aggregation = Some w ->
     exists out,
       update_dashboard df selected_params time_range aggregation
         custom_start custom_end n_intervals = Some out /\
       out_table_data out
       = Pandas.resample_mean w (Pandas.filter_between start_time end_time df)).
Proof.
  intros Hrange df end_time hours start_time.
  assert (Hwin : select_window end_time time_range custom_start custom_end
                 = (start_time, end_time)).
  { unfold select_window. apply String.eqb_neq in Hrange. rewrite Hrange.
    reflexivity. }
  destruct (series_max_spec (map timestamp rest) (timestamp r0)) as [Hin Hmax].
  fold end_time in Hin, Hmax.
  split; [|split; [|split; [|split; [|split; [|split]]]]].
  - change (In end_time (map timestamp df)) in Hin.
    apply in_map_iff in Hin. destruct Hin as (r & E & Hr). now exists r.
  - intros r Hr. apply Hmax. now apply (in_map timestamp df r).
  - exact Hwin.
  - intros label Hl. unfold TIME_RANGES in Hl. cbn [In] in Hl. subst hours.
    destruct Hl as [Hl | [Hl | [Hl | [Hl | [Hl | [Hl | []]]]]]];
      injection Hl as <- <-; try (exfalso; now apply Hrange); auto 10.
  - apply hours_delta_unknown.
  - intros r. apply filter_between_In.
  - intros selected_params aggregation n_intervals w Hw.
    destruct (update_dashboard_cons r0 rest selected_params time_range aggregation
                custom_start custom_end n_intervals w Hw) as (out & Hout & Htable & _).
    exists out. split; [exact Hout|].
    rewrite Htable. fold end_time. now rewrite Hwin.
Qed.

Lemma named_range_window_witness :
  "1H" <> "Custom" /\
  select_window (Pandas.series_max (timestamp (Samples.reading 0 7%float)) (map timestamp []))
    "1H" None None
  = (Pandas.series_max (timestamp (Samples.reading 0 7%float)) (map timestamp [])
     - Python.dict_get hours_delta "1H" 6 * Pandas.nanos_per_hour,
     Pandas.series_max (timestamp (Samples.reading 0 7%float)) (map timestamp [])).
Proof.
  split; [discriminate|].
  destruct (named_range_window (Samples.reading 0 7%float) [] "1H" None None
              ltac:(discriminate)) as (_ & _ & H & _).
  exact H.
Defined.

(** C3, as stated, fails: with "Custom" selected and no bounds the
    window is not empty.  On the three readings of the scenario the
    table has its two buckets. *)
Lemma custom_without_bounds_not_empty :
  exists out,
    update_dashboard Samples.scenario (One pH) "Custom" "10T" None None 0 = Some out /\
    List.length (out_table_data out) = 2%nat.
Proof. eexists. split; [vm_compute; reflexivity | reflexivity]. Qed.

(** C3, amended: whenever the range is "Custom" and either bound is
    missing, no exception is raised and the dashboard falls back to the
    default window, the six hours that end at the maximum timestamp;
    the windowed frame holds the readings of those six hours, which
    include the latest one, so the aggregation has at least one row. *)
Theorem custom_without_bounds_falls_back (r0 : Row) (rest : DataFrame)
    (custom_start custom_end : option Z) :
  custom_start = None \/ custom_end = None ->
  let df := r0 :: rest in
  let end_time := Pandas.series_max (timestamp r0) (map timestamp rest) in
  let start_time := end_time - 6 * Pandas.nanos_per_hour in
  select_window end_time "Custom" custom_start custom_end = (start_time, end_time) /\
  (forall r, In r (Pandas.filter_between start_time end_time df)
             <-> In r df /\ start_time <= timestamp r <= end_time) /\
  Pandas.filter_between start_time end_time df <> [] /\
  (forall selected_params aggregation n_intervals,
     offered aggregation ->
     exists out,
       update_dashboard df selected_params "Custom" aggregation
         custom_start custom_end n_intervals = Some out /\
       out_table_data out <> []).
Proof.
  intros Hmissing df end_time start_time.
  assert (Hwin : select_window end_time "Custom" custom_start custom_end
                 = (start_time, end_time)).
  { unfold select_window.
    destruct Hmissing as [-> | ->]; [|destruct custom_start]; reflexivity. }
  assert (Hne : Pandas.filter_between start_time end_time df <> []).
  { destruct (series_max_spec (map timestamp rest) (timestamp r0)) as [Hin _].
    fold end_time in Hin. change (In end_time (map timestamp df)) in Hin.
    apply in_map_iff in Hin. destruct Hin as (r & E & Hr).
    intros Hnil.
    assert (Hin : In r (Pandas.filter_between start_time end_time df)).
    { apply filter_between_In. split; [assumption|]. subst start_time.
      unfold Pandas.nanos_per_hour, Pandas.nanos_per_minute. lia. }
    rewrite Hnil in Hin. destruct Hin. }
  split; [exact Hwin|]. split; [intros r; apply filter_between_In|].
  split; [exact Hne|].
  intros selected_params aggregation n_intervals Hoff.
  destruct (offered_width aggregation Hoff) as (w & Hw & Hpos & _).
  destruct (update_dashboard_cons r0 rest selected_params "Custom" aggregation
              custom_start custom_end n_intervals w Hw) as (out & Hout & Htable & _).
  exists out. split; [exact Hout|].
  rewrite Htable. fold end_time. rewrite Hwin. now apply resample_nonempty.
Qed.

Lemma custom_without_bounds_falls_back_witness :
  (@None Z = None \/ Some 5 = None) /\
  select_window (Pandas.series_max (timestamp (Samples.reading 0 7%float)) (map timestamp []))
    "Custom" None (Some 5)
  = (Pandas.series_max (timestamp (Samples.reading 0 7%float)) (map timestamp [])
     - 6 * Pandas.nanos_per_hour,
     Pandas.series_max (timestamp (Samples.reading 0 7%float)) (map timestamp [])).
Proof.
  split; [now left|].
  destruct (custom_without_bounds_falls_back (Samples.reading 0 7%float) [] None (Some 5)
              (or_introl eq_refl)) as (H & _).
  exact H.
Defined.

(** C6: whenever the frame of the day is empty, the dashboard returns,
    whatever the controls hold and before any window or aggregation is
    computed, a chart without data, a table without rows (and without
    columns), the empty store, and the placeholder "--" on each of the
    four cards. *)
Theorem empty_frame_short_circuits (selected_params : Selection)
    (time_range aggregation : string) (custom_start custom_end : option Z)
    (n_intervals : nat) :
  exists out,
    update_dashboard [] selected_params time_range aggregation
      custom_start custom_end n_intervals = Some out /\
    out = mkOutputs px_line [] [] StoreDict ["--"; "--"; "--"; "--"] /\
    figure_points (out_figure out) = 0%nat /\
    out_table_data out = [] /\
    (forall p, card p out = "--").
Proof.
  eexists. split; [reflexivity|]. split; [reflexivity|].
  split; [reflexivity|]. split; [reflexivity|]. intros []; reflexivity.
Qed.

(** C7: when the range is "Custom" and both bounds are present, the
    window is the pair of bounds as given, whatever their order and
    whatever the frame holds: the dashboard aggregates exactly the
    readings whose timestamp lies between the two bounds, both
    included, and its table, the series of its chart and its store are
    made from that aggregation.  When the start is later than the end
    the windowed frame is empty and the dashboard returns, without an
    error, a table of zero rows and a chart without points. *)
Theorem custom_range_verbatim (df : DataFrame) (selected_params : Selection)
    (aggregation : string) (custom_start custom_end : Z) (n_intervals : nat) :
  offered aggregation ->
  (forall end_time,
     select_window end_time "Custom" (Some custom_start) (Some custom_end)
     = (custom_start, custom_end)) /\
  (forall r, In r (Pandas.filter_between custom_start custom_end df)
             <-> In r df /\ custom_start <= timestamp r <= custom_end) /\
  (exists w out,
     Pandas.to_offset aggregation = Some w /\
     update_dashboard df selected_params "Custom" aggregation
       (Some custom_start) (Some custom_end) n_intervals = Some out /\
     out_table_data out
     = Pandas.resample_mean w (Pandas.filter_between custom_start custom_end df) /\
     (df <> [] ->
      out_store out = StoreJson (to_json_split (out_table_data out)) /\
      forall trace, In trace (out_figure out) ->
        sc_x trace = map timestamp (out_table_data out) /\
        exists p, sc_y trace = map (cell p) (out_table_data out))) /\
  (custom_end < custom_start ->
   Pandas.filter_between custom_start custom_end df = [] /\
   exists out,
     update_dashboard df selected_params "Custom" aggregation
       (Some custom_start) (Some custom_end) n_intervals = Some out /\
     out_table_data out = [] /\
     figure_points (out_figure out) = 0%nat).
Proof.
  intros Hoff. split; [reflexivity|].
  split; [intros r; apply filter_between_In|].
  destruct (offered_width aggregation Hoff) as (w & Hw & _).
  assert (Hrun : exists out,
    update_dashboard df selected_params "Custom" aggregation
      (Some custom_start) (Some custom_end) n_intervals = Some out /\
    out_table_data out
    = Pandas.resample_mean w (Pandas.filter_between custom_start custom_end df) /\
    (df <> [] ->
     out_store out = StoreJson (to_json_split (out_table_data out)) /\
     out_figure out
     = map (fun param =>
              mkScatter (map timestamp (out_table_data out))
                (map (cell param) (out_table_data out))
                (trace_name (PARAMETERS param)) (cfg_color (PARAMETERS param)))
           (match selected_params with One p => [p] | Many ps => ps end))).
  { destruct df as [|r0 rest].
    - eexists. split; [reflexivity|]. split; [reflexivity|]. intros H. now contradiction H.
    - destruct (update_dashboard_cons r0 rest selected_params "Custom" aggregation
                  (Some custom_start) (Some custom_end) n_intervals w Hw)
        as (out & Hout & Htable & Hfig & _ & Hstore & _).
      change (select_window _ "Custom" (Some custom_start) (Some custom_end))
        with (custom_start, custom_end) in Htable, Hfig, Hstore.
      cbn [fst snd] in Htable, Hfig, Hstore.
      exists out. split; [exact Hout|]. split; [exact Htable|].
      intros _. rewrite Htable. split; [exact Hstore | exact Hfig]. }
  destruct Hrun as (out & Hout & Htable & Hrest).
  split.
  { exists w, out. split; [exact Hw|]. split; [exact Hout|]. split; [exact Htable|].
    intros Hdf. destruct (Hrest Hdf) as [Hstore Hfig]. split; [exact Hstore|].
    intros trace Htrace. rewrite Hfig in Htrace. apply in_map_iff in Htrace.
    destruct Htrace as (p & <- & _). split; [reflexivity | now exists p]. }
  intros Hlt.
  pose proof (filter_between_reversed custom_start custom_end df Hlt) as Hnil.
  split; [exact Hnil|].
  exists out. split; [exact Hout|].
  rewrite Hnil in Htable. split; [exact Htable|].
  destruct df as [|r0 rest].
  - injection Hout as <-. reflexivity.
  - destruct (Hrest ltac:(discriminate)) as [_ Hfig]. rewrite Hfig, Htable.
    apply figure_points_no_rows.
Qed.

Lemma custom_range_verbatim_witness :
  offered "10T" /\
  exists w out,
    Pandas.to_offset "10T" = Some w /\
    update_dashboard Samples.scenario (One pH) "Custom" "10T"
      (Some Samples.t0900) (Some (Samples.t0900 + Samples.minutes 5)) 0 = Some out /\
    out_table_data out
    = Pandas.resample_mean w
        (Pandas.filter_between Samples.t0900 (Samples.t0900 + Samples.minutes 5)
           Samples.scenario).
Proof.
  split; [now left|].
  destruct (custom_range_verbatim Samples.scenario (One pH) "10T"
              Samples.t0900 (Samples.t0900 + Samples.minutes 5) 0 (or_introl eq_refl))
    as (_ & _ & (w & out & Hw & Hout & Htable & _) & _).
  exists w, out. split; [exact Hw|]. split; [exact Hout | exact Htable].
Defined.

(** ** Formatting *)

Lemma digit_char_is_digit (d : Z) : 0 <= d < 10 -> is_digit (Python.digit_char d) = true.
Proof.
  intros H.
  assert (E : d = 0 \/ d = 1 \/ d = 2 \/ d = 3 \/ d = 4 \/ d = 5 \/ d = 6 \/ d = 7
              \/ d = 8 \/ d = 9) by lia.
  repeat (destruct E as [-> | E]; [reflexivity|]). subst d. reflexivity.
Qed.

Lemma mod10_digit (n : Z) : is_digit (Python.digit_char (n mod 10)) = true.
Proof. apply digit_char_is_digit, Z.mod_pos_bound. reflexivity. Qed.

Lemma uint_digits (d : Decimal.uint) : all_digits (NilEmpty.string_of_uint d) = true.
Proof. induction d; cbn [NilEmpty.string_of_uint all_digits]; auto. Qed.

(** A number is written with one digit or more, and with digits only. *)
Lemma str_of_nonneg_digits (n : Z) :
  all_digits (Python.str_of_nonneg n) = true /\ Python.str_of_nonneg n <> "".
Proof.
  unfold Python.str_of_nonneg. generalize (N.to_uint (Z.to_N n)) as d.
  intros d. split.
  - destruct d; try apply uint_digits. reflexivity.
  - destruct d; discriminate.
Qed.

Lemma digit_not_point_or_minus (c : ascii) :
  is_digit c = true -> c <> "."%char /\ c <> "-"%char.
Proof.
  intros H. split; intros ->; discriminate H.
Qed.

Lemma unsigned_two_decimals_intro (ds : string) (d1 d2 : ascii) :
  ds <> "" -> all_digits ds = true -> is_digit d1 = true -> is_digit d2 = true ->
  unsigned_two_decimals (ds ++ String "." (String d1 (String d2 "")))%string = true.
Proof.
  intros Hne Hds H1 H2. induction ds as [|c ds IH]; [now contradiction Hne|].
  simpl in Hds. apply andb_true_iff in Hds. destruct Hds as [Hc Hds].
  change ((String c ds ++ String "." (String d1 (String d2 ""))))%string
    with (String c (ds ++ String "." (String d1 (String d2 ""))))%string.
  cbn [unsigned_two_decimals]. rewrite Hc. cbn [andb].
  destruct ds as [|c' ds].
  - simpl. now rewrite H1, H2.
  - assert (IH' := IH ltac:(discriminate) Hds).
    simpl in Hds. apply andb_true_iff in Hds. destruct Hds as [Hc' _].
    destruct (digit_not_point_or_minus c' Hc') as [Hp _].
    change ((String c' ds ++ String "." (String d1 (String d2 ""))))%string
      with (String c' (ds ++ String "." (String d1 (String d2 ""))))%string in *.
    destruct c' as [[] [] [] [] [] [] [] []]; try exact IH'; now contradiction Hp.
Qed.

Lemma fixed2_two_decimals (q : Z) : unsigned_two_decimals (Python.fixed2 q) = true.
Proof.
  unfold Python.fixed2. destruct (str_of_nonneg_digits (q / 100)) as [Hd Hne].
  apply unsigned_two_decimals_intro; auto using mod10_digit.
Qed.

Lemma fixed2_head (q : Z) :
  exists c rest, Python.fixed2 q = String c rest /\ is_digit c = true.
Proof.
  unfold Python.fixed2. destruct (str_of_nonneg_digits (q / 100)) as [Hd Hne].
  destruct (Python.str_of_nonneg (q / 100)) as [|c ds]; [now contradiction Hne|].
  simpl in Hd. apply andb_true_iff in Hd. destruct Hd as [Hc _].
  eexists c, _. split; [reflexivity | exact Hc].
Qed.

Lemma signed_fixed2_two_decimals (s : bool) (q : Z) :
  two_decimals (Python.sign_str s ++ Python.fixed2 q)%string = true.
Proof.
  destruct s; cbn [Python.sign_str String.append].
  - apply fixed2_two_decimals.
  - destruct (fixed2_head q) as (c & rest & E & Hc).
    assert (H := fixed2_two_decimals q). rewrite E in *.
    destruct (digit_not_point_or_minus c Hc) as [_ Hm].
    unfold two_decimals.
    destruct c as [[] [] [] [] [] [] [] []]; try exact H; now contradiction Hm.
Qed.

(** A finite value is written with exactly two decimals. *)
Lemma format_2f_finite (x : float) :
  finite x = true -> two_decimals (Python.format_2f x) = true.
Proof.
  unfold finite, Python.format_2f.
  destruct (Prim2SF x); try discriminate; intros _; apply signed_fixed2_two_decimals.
Qed.

Lemma format_2f_missing (x : float) : missing x = true -> Python.format_2f x = "nan".
Proof.
  unfold missing, Python.format_2f, Prim2SF. intros ->. reflexivity.
Qed.

Lemma format_2f_not_placeholder (x : float) : Python.format_2f x <> "--".
Proof.
  destruct (finite x) eqn:F.
  - intros E. apply format_2f_finite in F. rewrite E in F. discriminate F.
  - unfold finite in F. unfold Python.format_2f.
    destruct (Prim2SF x) as [s | s | | s m e]; try discriminate F.
    + destruct s; discriminate.
    + discriminate.
Qed.

(** ** The JSON document *)



(** A bucket start of a width that divides the day is a multiple of
    the width counted from the epoch. *)
Lemma resample_timestamp_divisible (w : Z) (df : DataFrame) (row : Row) :
  0 < w -> (w | Pandas.nanos_per_day) ->
  In row (Pandas.resample_mean w df) -> (w | timestamp row).
Proof.
  intros Hw Hday Hrow. destruct df as [|r0 df]; [destruct Hrow|].
  destruct (resample_labels_from_origin w r0 df Hw) as (k0 & n & _ & Hts).
  apply (in_map timestamp) in Hrow. rewrite Hts in Hrow.
  apply date_range_In in Hrow. destruct Hrow as (k & _ & ->).
  apply Z.divide_add_r; [apply Z.divide_add_r|]; try (now apply Z.divide_factor_r).
  unfold resample_origin. simpl map.
  apply (Z.divide_trans _ _ _ Hday), normalize_day_multiple.
Qed.

Lemma strip_zeros_count (fuel : nat) (frac count : Z) :
  count - Z.of_nat fuel <= snd (Json.strip_zeros fuel frac count) <= count.
Proof.
  revert frac count. induction fuel as [|fuel IH]; intros frac count.
  - cbn [Json.strip_zeros snd]. lia.
  - cbn [Json.strip_zeros]. destruct (frac mod 10 =? 0).
    + specialize (IH (frac / 10) (count - 1)). lia.
    + cbn [snd]. lia.
Qed.

(** A number of the document has 10 decimals at most. *)
Lemma encode_double_decimals (x : float) :
  0 <= decimals_of (Json.encode_double x) <= 10.
Proof.
  unfold Json.encode_double.
  destruct (Prim2SF x) as [s | s | | s m e]; cbn [decimals_of]; try lia.
  destruct (PrimFloat.ltb Json.thres_max (PrimFloat.abs x)
            || PrimFloat.ltb (PrimFloat.abs x) Json.thres_min).
  - destruct (Json.significant_10 m e) as [q k].
    destruct (q mod 10 ^ 9 =? 0); [cbn [decimals_of]; lia|].
    pose proof (strip_zeros_count 9 (q mod 10 ^ 9) 9) as H.
    destruct (Json.strip_zeros 9 (q mod 10 ^ 9) 9) as [frac count].
    cbn [decimals_of snd] in *. lia.
  - match goal with
    | |- context [if ?c then (?a, 0) else (?b, ?f)] => destruct c
    end.
    + cbn [decimals_of Z.eqb]. lia.
    + match goal with |- context [Json.round_fraction ?t] => set (frac := Json.round_fraction t) end.
      destruct (frac =? 0); [cbn [decimals_of]; lia|].
      pose proof (strip_zeros_count 10 frac 10) as H.
      destruct (Json.strip_zeros 10 frac 10) as [frac' count].
      cbn [decimals_of snd] in *. lia.
Qed.

Lemma decode_encode_row (r : Row) :
  (Pandas.nanos_per_milli | timestamp r) ->
  Json.decode_row (Json.encode_row r) = row_round_trip r.
Proof.
  intros [k Hk]. unfold Json.decode_row, Json.encode_row, row_round_trip. cbn [jr_timestamp
    jr_pH jr_TDS jr_Depth jr_FlowInd]. f_equal.
  rewrite Hk, Z.div_mul by discriminate. reflexivity.
Qed.

Lemma read_to_json (df : DataFrame) :
  (forall r, In r df -> (Pandas.nanos_per_milli | timestamp r)) ->
  read_json_split (to_json_split df) = (frame_columns, map row_round_trip df).
Proof.
  intros H. unfold read_json_split, to_json_split. cbn [js_columns js_data]. f_equal.
  rewrite map_map. apply map_ext_in. intros r Hr. apply decode_encode_row, H, Hr.
Qed.

Lemma export_of_table (table : DataFrame) (clicks : nat) (now : string) :
  (forall r, In r table -> (Pandas.nanos_per_milli | timestamp r)) ->
  export_data (Some (S clicks)) (StoreJson (to_json_split table)) now
  = Some (mkDownload ("water_quality_data_" ++ now ++ ".xlsx") "Data"
            frame_columns (map row_round_trip table)).
Proof.
  intros H. unfold export_data. now rewrite (read_to_json table H).
Qed.


(** The table of a refresh has bucket starts on whole milliseconds. *)
Lemma table_on_milliseconds (w : Z) (df : DataFrame) (row : Row) :
  0 < w -> (w | Pandas.nanos_per_day) -> (Pandas.nanos_per_milli | w) ->
  In row (Pandas.resample_mean w df) -> (Pandas.nanos_per_milli | timestamp row).
Proof.
  intros Hw Hday Hms Hrow.
  apply (Z.divide_trans _ _ _ Hms), (resample_timestamp_divisible w df row Hw Hday Hrow).
Qed.

(** ** The presenter *)

Lemma last_In_nonempty {A : Type} (a : A) (l : list A) (d : A) : In (last (a :: l) d) (a :: l).
Proof.
  revert a. induction l as [|b l IH]; intros a; [now left|].
  change (last (a :: b :: l) d) with (last (b :: l) d). right. apply IH.
Qed.

Lemma last_default {A : Type} (a : A) (l : list A) (d d' : A) :
  last (a :: l) d = last (a :: l) d'.
Proof.
  revert a. induction l as [|b l IH]; intros a; [reflexivity|].
  change (last (b :: l) d = last (b :: l) d'). apply IH.
Qed.

Lemma last_is_latest (df : DataFrame) (d : Row) :
  time_ordered df -> forall r, In r df -> timestamp r <= timestamp (last df d).
Proof.
  unfold time_ordered. induction 1 as [|a l Hsorted IH Hall]; intros r Hr; [destruct Hr|].
  destruct l as [|b l].
  - destruct Hr as [<- | []]. simpl. lia.
  - change (last (a :: b :: l) d) with (last (b :: l) d).
    destruct Hr as [<- | Hr]; [|now apply IH].
    rewrite Forall_forall in Hall. apply Hall, last_In_nonempty.
Qed.

Lemma card_of_values (p : Param) (out : Outputs) (f : Param -> string) :
  out_values out = map f PARAMETERS_keys -> card p out = f p.
Proof. intros H. unfold card. rewrite H. destruct p; reflexivity. Qed.

(** C8, as stated, fails twice.  A latest reading without a pH value
    puts "nan" on the pH card, which has no decimals; and the copy of
    the table that is stored for export keeps 10 decimals: the mean
    1.3333333333333333 of the table is stored as the numeral
    1.3333333333, which the export reads back as 1.3333333333000001. *)
Lemma latest_summary_not_always_two_decimals :
  (exists out,
     update_dashboard Samples.missing_pH (One pH) "6H" "10T" None None 0 = Some out /\
     card pH out = "nan" /\ two_decimals (card pH out) = false) /\
  (exists out doc dl,
     update_dashboard Samples.thirds (One pH) "6H" "10T" None None 0 = Some out /\
     out_store out = StoreJson doc /\
     export_data (Some 1%nat) (out_store out) "20241028_0910" = Some dl /\
     map col_pH (out_table_data out) = [1.3333333333333333%float] /\
     map jr_pH (js_data doc) = [JNum false 1 3333333333 10 None] /\
     map col_pH (dl_rows dl) = [1.3333333333000001%float] /\
     map col_pH (dl_rows dl) <> map col_pH (out_table_data out)).
Proof.
  split.
  - eexists. split; [vm_compute; reflexivity|]. split; reflexivity.
  - eexists. eexists. eexists. split; [vm_compute; reflexivity|].
    split; [reflexivity|].
    split; [vm_compute; reflexivity|].
    split; [reflexivity|]. split; [vm_compute; reflexivity|].
    split; [vm_compute; reflexivity|].
    intros H.
    apply (f_equal (fun l => PrimFloat.eqb (hd 0%float l) 1.3333333333333333%float)) in H.
    vm_compute in H. discriminate H.
Qed.

(** C8, amended: for every non-empty frame the four cards are computed
    from the last reading of the full, unwindowed frame (the most
    recent one when the frame is in timestamp order) and so do not
    depend on the selected parameters, time range, custom bounds or
    aggregation width; a finite value is written with exactly 2
    decimals (a NaN or infinite one is not a numeral).  The table and
    the chart carry the bucket means as computed, unrounded; the stored
    copy is the JSON document of that table, which keeps 10 decimals
    of each mean at most, and the export holds what [pd.read_json]
    reads from that document. *)
Theorem latest_summary_from_last_reading (r0 : Row) (rest : DataFrame)
    (selected_params : Selection) (time_range aggregation : string)
    (custom_start custom_end : option Z) (n_intervals : nat) :
  offered aggregation ->
  let df := r0 :: rest in
  let latest_row := last df r0 in
  exists out,
    update_dashboard df selected_params time_range aggregation
      custom_start custom_end n_intervals = Some out /\
    In latest_row df /\
    (time_ordered df -> forall r, In r df -> timestamp r <= timestamp latest_row) /\
    (forall p, card p out = Python.format_2f (cell p latest_row)) /\
    (forall selected_params' time_range' aggregation' custom_start' custom_end' n_intervals',
       offered aggregation' ->
       exists out',
         update_dashboard df selected_params' time_range' aggregation'
           custom_start' custom_end' n_intervals' = Some out' /\
         out_values out' = out_values out) /\
    (forall p, finite (cell p latest_row) = true -> two_decimals (card p out) = true) /\
    (exists w start_time end_time,
       Pandas.to_offset aggregation = Some w /\
       out_table_data out
       = Pandas.resample_mean w (Pandas.filter_between start_time end_time df)) /\
    (forall trace, In trace (out_figure out) ->
       sc_x trace = map timestamp (out_table_data out) /\
       exists p, sc_y trace = map (cell p) (out_table_data out)) /\
    out_store out = StoreJson (to_json_split (out_table_data out)) /\
    (forall row p, In row (out_table_data out) ->
       0 <= decimals_of (Json.encode_double (cell p row)) <= 10) /\
    (forall clicks now,
       exists dl,
         export_data (Some (S clicks)) (out_store out) now = Some dl /\
         dl_rows dl = map row_round_trip (out_table_data out)).
Proof.
  intros Hoff df latest_row.
  destruct (offered_width aggregation Hoff) as (w & Hw & Hpos & Hday & Hms).
  destruct (update_dashboard_cons r0 rest selected_params time_range aggregation
              custom_start custom_end n_intervals w Hw)
    as (out & Hout & Htable & Hfig & _ & Hstore & Hvalues).
  exists out. split; [exact Hout|].
  split; [apply last_In_nonempty|].
  split; [apply last_is_latest|].
  split; [intros p; apply (card_of_values p out _ Hvalues)|].
  split.
  { intros sel' tr' agg' cs' ce' n' Hoff'.
    destruct (offered_width agg' Hoff') as (w' & Hw' & _).
    destruct (update_dashboard_cons r0 rest sel' tr' agg' cs' ce' n' w' Hw')
      as (out' & Hout' & _ & _ & _ & _ & Hvalues').
    exists out'. split; [exact Hout'|]. now rewrite Hvalues, Hvalues'. }
  split.
  { intros p Hfin. rewrite (card_of_values p out _ Hvalues). now apply format_2f_finite. }
  split.
  { eexists w, _, _. split; [exact Hw | exact Htable]. }
  split.
  { intros trace Htrace. rewrite Hfig in Htrace. apply in_map_iff in Htrace.
    destruct Htrace as (p & <- & _). rewrite Htable. split; [reflexivity|].
    now exists p. }
  split; [now rewrite Hstore, Htable|].
  split; [intros row p _; apply encode_double_decimals|].
  intros clicks now. rewrite Hstore, Htable. eexists. split.
  - apply export_of_table.
    intros r Hr. now apply (table_on_milliseconds w _ r Hpos Hday Hms Hr).
  - reflexivity.
Qed.

Lemma latest_summary_from_last_reading_witness :
  offered "10T" /\
  exists out,
    update_dashboard Samples.scenario (One pH) "6H" "10T" None None 0 = Some out /\
    forall p, card p out = Python.format_2f (cell p (last Samples.scenario (Samples.reading Samples.t0900 7%float))).
Proof.
  split; [now left|].
  destruct (latest_summary_from_last_reading (Samples.reading Samples.t0900 7%float)
              (tl Samples.scenario) (One pH) "6H" "10T" None None 0 (or_introl eq_refl))
    as (out & Hout & _ & _ & Hcard & _).
  exists out. split; [exact Hout | exact Hcard].
Defined.

(** C9: when the frame is not empty and the latest reading has no
    value (NaN) for a field, that field's card shows "nan"; no card of a
    non-empty frame shows the placeholder "--", which every card shows
    when the frame is empty. *)
Theorem missing_latest_value_shows_nan (df : DataFrame) (selected_params : Selection)
    (time_range aggregation : string) (custom_start custom_end : option Z)
    (n_intervals : nat) :
  offered aggregation ->
  exists out,
    update_dashboard df selected_params time_range aggregation
      custom_start custom_end n_intervals = Some out /\
    (forall p, card p out = "--" <-> df = []) /\
    (forall r0 p, df <> [] -> missing (cell p (last df r0)) = true -> card p out = "nan").
Proof.
  intros Hoff. destruct df as [|r0 rest].
  { eexists. split; [reflexivity|]. split.
    - intros []; split; reflexivity.
    - intros r p H. now contradiction H. }
  destruct (offered_width aggregation Hoff) as (w & Hw & _).
  destruct (update_dashboard_cons r0 rest selected_params time_range aggregation
              custom_start custom_end n_intervals w Hw)
    as (out & Hout & _ & _ & _ & _ & Hvalues).
  exists out. split; [exact Hout|]. split.
  - intros p. rewrite (card_of_values p out _ Hvalues). split; [|discriminate].
    intros H. now apply format_2f_not_placeholder in H.
  - intros d p _ Hmiss. rewrite (card_of_values p out _ Hvalues).
    apply format_2f_missing.
    now rewrite (last_default r0 rest r0 d).
Qed.

Lemma missing_latest_value_shows_nan_witness :
  offered "10T" /\
  exists out,
    update_dashboard Samples.missing_pH (One pH) "6H" "10T" None None 0 = Some out /\
    (forall r0 p, Samples.missing_pH <> [] ->
       missing (cell p (last Samples.missing_pH r0)) = true -> card p out = "nan").
Proof.
  split; [now left|].
  destruct (missing_latest_value_shows_nan Samples.missing_pH (One pH) "6H" "10T"
              None None 0 (or_introl eq_refl)) as (out & Hout & _ & Hnan).
  exists out. split; [exact Hout | exact Hnan].
Defined.

(** ** Export *)




(** ** Further properties of the callbacks *)

Lemma toggle_custom_date_none (selected_range : string) :
  toggle_custom_date selected_range = "none" <-> selected_range <> "Custom".
Proof.
  unfold toggle_custom_date.
  destruct (String.eqb_spec selected_range "Custom") as [E | E]; split; intros H;
    try discriminate; try assumption; try reflexivity. now contradiction H.
Qed.

(** X1: the date picker is shown exactly when the range is "Custom",
    and while it is hidden its dates (and the tick counter) change
    nothing in what [update_dashboard] returns. *)
Theorem hidden_date_picker_has_no_effect (df : DataFrame) (selected_params : Selection)
    (time_range aggregation : string) (custom_start custom_end custom_start' custom_end' : option Z)
    (n_intervals n_intervals' : nat) :
  (toggle_custom_date time_range = "block" <-> time_range = "Custom") /\
  (toggle_custom_date time_range = "none" ->
   update_dashboard df selected_params time_range aggregation
     custom_start custom_end n_intervals
   = update_dashboard df selected_params time_range aggregation
       custom_start' custom_end' n_intervals').
Proof.
  split.
  - unfold toggle_custom_date.
    destruct (String.eqb_spec time_range "Custom") as [E | E]; split; intros H;
      try discriminate; try assumption; try reflexivity. now contradiction E.
  - intros H. apply toggle_custom_date_none, String.eqb_neq in H.
    destruct df as [|r0 rest]; [reflexivity|].
    unfold update_dashboard, select_window. rewrite H. reflexivity.
Qed.

Lemma hidden_date_picker_has_no_effect_witness :
  toggle_custom_date "6H" = "none" /\
  update_dashboard Samples.scenario (One pH) "6H" "10T" None None 0
  = update_dashboard Samples.scenario (One pH) "6H" "10T" (Some 9) (Some 5) 7.
Proof.
  split; [reflexivity|].
  apply (hidden_date_picker_has_no_effect Samples.scenario (One pH) "6H" "10T"
           None None (Some 9) (Some 5) 0 7).
  reflexivity.
Defined.

(** The table of a refresh is the aggregation of the windowed frame. *)
Lemma update_dashboard_window (r0 : Row) (rest : DataFrame) (selected_params : Selection)
    (time_range aggregation : string) (custom_start custom_end : option Z)
    (n_intervals : nat) (w : Z) :
  Pandas.to_offset aggregation = Some w ->
  exists out,
    update_dashboard (r0 :: rest) selected_params time_range aggregation
      custom_start custom_end n_intervals = Some out /\
    out_table_data out
    = Pandas.resample_mean w (window_frame (r0 :: rest) time_range custom_start custom_end) /\
    out_figure out
    = map (fun param =>
             mkScatter (map timestamp (out_table_data out))
               (map (cell param) (out_table_data out))
               (trace_name (PARAMETERS param)) (cfg_color (PARAMETERS param)))
          (selection_list selected_params) /\
    out_columns out = map (fun i => (i, i)) frame_columns /\
    out_store out = StoreJson (to_json_split (out_table_data out)) /\
    out_values out
    = map (fun param => Python.format_2f (cell param (last (r0 :: rest) r0))) PARAMETERS_keys.
Proof.
  intros Hw.
  destruct (update_dashboard_cons r0 rest selected_params time_range aggregation
              custom_start custom_end n_intervals w Hw)
    as (out & Hout & Htable & Hfig & Hcols & Hstore & Hvalues).
  assert (Ht : out_table_data out
               = Pandas.resample_mean w
                   (window_frame (r0 :: rest) time_range custom_start custom_end)).
  { rewrite Htable. unfold window_frame.
    now destruct (select_window _ time_range custom_start custom_end). }
  exists out. split; [exact Hout|]. split; [exact Ht|].
  split; [now rewrite Hfig, Htable|]. split; [exact Hcols|].
  split; [now rewrite Hstore, Htable | exact Hvalues].
Qed.

Lemma figure_points_traces (table : DataFrame) (selected : list Param) :
  figure_points
    (map (fun param =>
            mkScatter (map timestamp table) (map (cell param) table)
              (trace_name (PARAMETERS param)) (cfg_color (PARAMETERS param)))
         selected)
  = (List.length selected * List.length table)%nat.
Proof.
  unfold figure_points. rewrite map_map. cbn [sc_x]. rewrite length_map.
  induction selected as [|p l IH]; [reflexivity|].
  simpl. rewrite IH. lia.
Qed.

(** X2: the parameter selection shapes the chart and nothing else.  For
    an offered aggregation, two selections give the same table,
    columns, store and card values; the chart has one trace per
    selected parameter, in the order of the selection (a single key
    counts as a list of one), each trace with one point per table row:
    its x values are the bucket starts and its y values the means of
    its parameter. *)
Theorem selection_only_shapes_chart (df : DataFrame) (selected_params selected_params' : Selection)
    (time_range aggregation : string) (custom_start custom_end : option Z)
    (n_intervals : nat) :
  offered aggregation ->
  exists out out',
    update_dashboard df selected_params time_range aggregation
      custom_start custom_end n_intervals = Some out /\
    update_dashboard df selected_params' time_range aggregation
      custom_start custom_end n_intervals = Some out' /\
    out_table_data out' = out_table_data out /\
    out_columns out' = out_columns out /\
    out_store out' = out_store out /\
    out_values out' = out_values out /\
    (df <> [] ->
     map sc_name (out_figure out)
     = map (fun p => trace_name (PARAMETERS p)) (selection_list selected_params) /\
     map sc_y (out_figure out)
     = map (fun p => map (cell p) (out_table_data out)) (selection_list selected_params) /\
     (forall trace, In trace (out_figure out) ->
        sc_x trace = map timestamp (out_table_data out) /\
        List.length (sc_y trace) = List.length (out_table_data out)) /\
     figure_points (out_figure out)
     = (List.length (selection_list selected_params) * List.length (out_table_data out))%nat).
Proof.
  intros Hoff. destruct df as [|r0 rest].
  { eexists. eexists. repeat (split; [reflexivity|]). intros H. now contradiction H. }
  destruct (offered_width aggregation Hoff) as (w & Hw & _).
  destruct (update_dashboard_window r0 rest selected_params time_range aggregation
              custom_start custom_end n_intervals w Hw)
    as (out & Hout & Htable & Hfig & Hcols & Hstore & Hvalues).
  destruct (update_dashboard_window r0 rest selected_params' time_range aggregation
              custom_start custom_end n_intervals w Hw)
    as (out' & Hout' & Htable' & _ & Hcols' & Hstore' & Hvalues').
  exists out, out'. split; [exact Hout|]. split; [exact Hout'|].
  split; [now rewrite Htable, Htable'|]. split; [now rewrite Hcols, Hcols'|].
  split; [now rewrite Hstore, Hstore', Htable, Htable'|].
  split; [now rewrite Hvalues, Hvalues'|].
  intros _. rewrite Hfig. split; [now rewrite map_map|]. split; [now rewrite map_map|].
  split; [|apply figure_points_traces].
  intros trace Htrace. apply in_map_iff in Htrace. destruct Htrace as (p & <- & _).
  cbn [sc_x sc_y]. split; [reflexivity | apply length_map].
Qed.

Lemma selection_only_shapes_chart_witness :
  offered "10T" /\
  exists out out',
    update_dashboard Samples.scenario (One pH) "6H" "10T" None None 0 = Some out /\
    update_dashboard Samples.scenario (Many [TDS; Depth]) "6H" "10T" None None 0 = Some out' /\
    out_table_data out' = out_table_data out.
Proof.
  split; [now left|].
  destruct (selection_only_shapes_chart Samples.scenario (One pH) (Many [TDS; Depth])
              "6H" "10T" None None 0 (or_introl eq_refl))
    as (out & out' & H1 & H2 & H3 & _).
  exists out, out'. split; [exact H1|]. split; [exact H2 | exact H3].
Defined.

(** ** Further properties of the window *)

Lemma dict_get_In {V : Type} (d : list (string * V)) (k : string) (v : V) :
  In (Python.dict_get d k v) (v :: map snd d).
Proof.
  induction d as [|[k' x] d IH]; cbn [Python.dict_get map snd]; [now left|].
  destruct (String.eqb k' k); [now right; left|].
  destruct IH as [IH | IH]; [now left | now right; right].
Qed.

Lemma hours_delta_pos (time_range : string) :
  0 < Python.dict_get hours_delta time_range 6.
Proof.
  destruct (dict_get_In hours_delta time_range 6) as [H | H]; [now rewrite <- H|].
  cbn [hours_delta map snd In] in H.
  repeat (destruct H as [H | H]; [now rewrite <- H|]). destruct H.
Qed.

(** Every range but a complete "Custom" one ends at the latest
    timestamp and starts its duration before. *)
Lemma select_window_named (end_time : Z) (time_range : string)
    (custom_start custom_end : option Z) :
  time_range <> "Custom" \/ custom_start = None \/ custom_end = None ->
  select_window end_time time_range custom_start custom_end
  = (end_time - Pandas.Timedelta_hours (Python.dict_get hours_delta time_range 6), end_time).
Proof.
  unfold select_window. intros [H | [-> | ->]].
  - apply String.eqb_neq in H. now rewrite H.
  - now destruct (String.eqb time_range "Custom").
  - now destruct (String.eqb time_range "Custom"), custom_start.
Qed.

Lemma Timedelta_hours_pos (h : Z) : 0 < h -> 0 < Pandas.Timedelta_hours h.
Proof.
  unfold Pandas.Timedelta_hours, Pandas.nanos_per_hour, Pandas.nanos_per_minute. lia.
Qed.

Lemma filter_between_idempotent (left right : Z) (df : DataFrame) :
  Pandas.filter_between left right (Pandas.filter_between left right df)
  = Pandas.filter_between left right df.
Proof.
  unfold Pandas.filter_between. induction df as [|r df IH]; [reflexivity|].
  cbn [filter]. destruct (Pandas.between left right (timestamp r)) eqn:E; [|exact IH].
  cbn [filter]. now rewrite E, IH.
Qed.

(** A window that ends at the latest timestamp keeps the latest
    reading, and its own latest timestamp is the same. *)
Lemma window_keeps_maximum (r0 : Row) (rest : DataFrame) (start_time : Z) :
  let end_time := Pandas.series_max (timestamp r0) (map timestamp rest) in
  start_time <= end_time ->
  (exists r, In r (Pandas.filter_between start_time end_time (r0 :: rest))
             /\ timestamp r = end_time) /\
  forall r0' rest',
    Pandas.filter_between start_time end_time (r0 :: rest) = r0' :: rest' ->
    Pandas.series_max (timestamp r0') (map timestamp rest') = end_time.
Proof.
  intros end_time Hle.
  destruct (series_max_spec (map timestamp rest) (timestamp r0)) as [Hin Hmax].
  fold end_time in Hin, Hmax. change (In end_time (map timestamp (r0 :: rest))) in Hin.
  apply in_map_iff in Hin. destruct Hin as (r & E & Hr).
  assert (Hr' : In r (Pandas.filter_between start_time end_time (r0 :: rest))).
  { apply filter_between_In. split; [assumption | lia]. }
  split; [now exists r|].
  intros r0' rest' EF.
  destruct (series_max_spec (map timestamp rest') (timestamp r0')) as [Hin' Hmax'].
  change (timestamp r0' :: map timestamp rest') with (map timestamp (r0' :: rest')) in *.
  rewrite <- EF in Hin', Hmax'. apply Z.le_antisymm.
  - apply in_map_iff in Hin'. destruct Hin' as (r' & <- & Hr'').
    apply filter_between_In in Hr''. lia.
  - rewrite <- E. apply Hmax'. now apply in_map.
Qed.

Lemma window_frame_named (r0 : Row) (rest : DataFrame) (time_range : string)
    (custom_start custom_end : option Z) :
  time_range <> "Custom" \/ custom_start = None \/ custom_end = None ->
  let end_time := Pandas.series_max (timestamp r0) (map timestamp rest) in
  window_frame (r0 :: rest) time_range custom_start custom_end
  = Pandas.filter_between
      (end_time - Pandas.Timedelta_hours (Python.dict_get hours_delta time_range 6))
      end_time (r0 :: rest).
Proof.
  intros H end_time. unfold window_frame. fold end_time.
  now rewrite (select_window_named end_time _ _ _ H).
Qed.

Lemma window_frame_custom (r0 : Row) (rest : DataFrame) (s e : Z) :
  window_frame (r0 :: rest) "Custom" (Some s) (Some e)
  = Pandas.filter_between s e (r0 :: rest).
Proof. reflexivity. Qed.

(** X3: windowing is idempotent.  For every frame and every setting of
    the range controls, the windowed frame is unchanged when the window
    is taken again from it. *)
Theorem window_frame_idempotent (df : DataFrame) (time_range : string)
    (custom_start custom_end : option Z) :
  window_frame (window_frame df time_range custom_start custom_end)
    time_range custom_start custom_end
  = window_frame df time_range custom_start custom_end.
Proof.
  destruct df as [|r0 rest]; [reflexivity|].
  set (end_time := Pandas.series_max (timestamp r0) (map timestamp rest)).
  assert (Hcases : (exists s e, time_range = "Custom" /\ custom_start = Some s
                                /\ custom_end = Some e)
                   \/ (time_range <> "Custom" \/ custom_start = None \/ custom_end = None)).
  { destruct (string_dec time_range "Custom") as [-> | H]; [|now right; left].
    destruct custom_start as [s|]; [|now right; right; left].
    destruct custom_end as [e|]; [|now right; right; right].
    left. now exists s, e. }
  destruct Hcases as [(s & e & -> & -> & ->) | Hnamed].
  - rewrite (window_frame_custom r0 rest s e).
    destruct (Pandas.filter_between s e (r0 :: rest)) as [|r0' rest'] eqn:EF; [reflexivity|].
    rewrite (window_frame_custom r0' rest' s e), <- EF.
    apply filter_between_idempotent.
  - rewrite (window_frame_named r0 rest time_range custom_start custom_end Hnamed).
    fold end_time. set (start_time := end_time - _).
    assert (Hle : start_time <= end_time).
    { subst start_time.
      assert (H := Timedelta_hours_pos _ (hours_delta_pos time_range)). lia. }
    destruct (window_keeps_maximum r0 rest start_time Hle) as [(r & Hr & _) Hsame].
    fold end_time in Hr, Hsame.
    destruct (Pandas.filter_between start_time end_time (r0 :: rest))
      as [|r0' rest'] eqn:EF; [destruct Hr|].
    rewrite (window_frame_named r0' rest' time_range custom_start custom_end Hnamed).
    rewrite (Hsame r0' rest' eq_refl). fold start_time.
    rewrite <- EF. apply filter_between_idempotent.
Qed.

(** X4: the named ranges nest.  When one range other than "Custom" has
    a duration no longer than another's, every reading of its windowed
    frame is in the other's; so the windows of 1H, 6H, 12H, 1D and 1W
    grow in that order. *)
Theorem named_windows_nest (df : DataFrame) (time_range time_range' : string)
    (custom_start custom_end custom_start' custom_end' : option Z) :
  time_range <> "Custom" -> time_range' <> "Custom" ->
  Python.dict_get hours_delta time_range 6 <= Python.dict_get hours_delta time_range' 6 ->
  incl (window_frame df time_range custom_start custom_end)
       (window_frame df time_range' custom_start' custom_end').
Proof.
  intros H H' Hle. destruct df as [|r0 rest]; [intros r []|].
  rewrite (window_frame_named r0 rest time_range custom_start custom_end (or_introl H)).
  rewrite (window_frame_named r0 rest time_range' custom_start' custom_end' (or_introl H')).
  intros r Hr. apply filter_between_In in Hr. apply filter_between_In.
  unfold Pandas.Timedelta_hours, Pandas.nanos_per_hour, Pandas.nanos_per_minute in *.
  split; [tauto | lia].
Qed.

Lemma named_windows_nest_witness :
  "1H" <> "Custom" /\ "1W" <> "Custom" /\
  Python.dict_get hours_delta "1H" 6 <= Python.dict_get hours_delta "1W" 6 /\
  incl (window_frame Samples.scenario "1H" None None)
       (window_frame Samples.scenario "1W" None None).
Proof.
  split; [discriminate|]. split; [discriminate|]. split; [discriminate|].
  apply (named_windows_nest Samples.scenario "1H" "1W" None None None None);
    discriminate.
Defined.

(** ** Further properties of the table *)

Lemma map_last {A B : Type} (f : A -> B) (l : list A) (d : A) :
  last (map f l) (f d) = f (last l d).
Proof.
  induction l as [|a l IH]; [reflexivity|].
  destruct l as [|b l]; [reflexivity|]. exact IH.
Qed.

Lemma date_range_last (w s : Z) (n : nat) (d : Z) :
  last (Pandas.date_range s w (S n)) d = s + Z.of_nat n * w.
Proof.
  revert s. induction n as [|n IH]; intros s.
  - simpl. lia.
  - change (last (Pandas.date_range s w (S (S n))) d)
      with (last (Pandas.date_range (s + w) w (S n)) d).
    rewrite IH. lia.
Qed.

(** The rows of a non-empty frame span its readings: the first bucket
    holds the earliest one, the last bucket the latest. *)
Lemma resample_span (w : Z) (df : DataFrame) :
  0 < w -> df <> [] ->
  exists s n rmin rmax,
    map timestamp (Pandas.resample_mean w df) = Pandas.date_range s w (S n) /\
    In rmin df /\ In rmax df /\
    (forall r, In r df -> timestamp rmin <= timestamp r <= timestamp rmax) /\
    s <= timestamp rmin < s + w /\
    s + Z.of_nat n * w <= timestamp rmax < s + Z.of_nat (S n) * w.
Proof.
  intros Hw Hne. destruct df as [|r0 df]; [now contradiction Hne|].
  destruct (axis_cons r0 df) as (t0 & rest & E).
  destruct (bin_labels_span w Hw t0 rest) as (s & n & Hlab & _ & Hlo & Hhi).
  destruct (axis_extremes _ _ _ E) as ((r1 & Hr1 & E1) & (r2 & Hr2 & E2) & Hb).
  exists s, n, r1, r2. rewrite E1, E2.
  split; [now rewrite resample_timestamps, E|]. auto.
Qed.

(** X5: for a non-empty frame and every range but a complete "Custom"
    one, the window holds the reading with the latest timestamp; so the
    table has at least one row, and the bucket of its last row holds
    that latest timestamp. *)
Theorem latest_reading_in_last_bucket (r0 : Row) (rest : DataFrame)
    (selected_params : Selection) (time_range aggregation : string)
    (custom_start custom_end : option Z) (n_intervals : nat) :
  offered aggregation ->
  time_range <> "Custom" \/ custom_start = None \/ custom_end = None ->
  let df := r0 :: rest in
  let end_time := Pandas.series_max (timestamp r0) (map timestamp rest) in
  exists out w,
    update_dashboard df selected_params time_range aggregation
      custom_start custom_end n_intervals = Some out /\
    Pandas.to_offset aggregation = Some w /\
    (exists r, In r (window_frame df time_range custom_start custom_end)
               /\ timestamp r = end_time) /\
    out_table_data out <> [] /\
    timestamp (last (out_table_data out) r0) <= end_time
      < timestamp (last (out_table_data out) r0) + w.
Proof.
  intros Hoff Hnamed df end_time.
  destruct (offered_width aggregation Hoff) as (w & Hw & Hpos & _).
  destruct (update_dashboard_window r0 rest selected_params time_range aggregation
              custom_start custom_end n_intervals w Hw) as (out & Hout & Htable & _).
  exists out, w. split; [exact Hout|]. split; [exact Hw|].
  fold df in Htable.
  assert (HF := window_frame_named r0 rest time_range custom_start custom_end Hnamed).
  fold df end_time in HF. cbv zeta in HF.
  set (start_time := end_time - _) in HF.
  assert (Hle : start_time <= end_time).
  { subst start_time.
    assert (H := Timedelta_hours_pos _ (hours_delta_pos time_range)). lia. }
  destruct (window_keeps_maximum r0 rest start_time Hle) as [(r & Hr & Er) _].
  fold df end_time in Hr, Er. rewrite <- HF in Hr.
  assert (Hne : window_frame df time_range custom_start custom_end <> []).
  { intros E. rewrite E in Hr. destruct Hr. }
  split; [now exists r|]. rewrite Htable.
  split; [now apply resample_nonempty|].
  destruct (resample_span w _ Hpos Hne) as (s & n & rmin & rmax & Hts & _ & Hmax & Hb & _ & Hhi).
  assert (Emax : timestamp rmax = end_time).
  { apply Z.le_antisymm.
    - rewrite HF in Hmax. apply filter_between_In in Hmax. lia.
    - rewrite <- Er. now apply Hb. }
  rewrite <- (map_last timestamp), Hts, date_range_last. rewrite Emax in Hhi. lia.
Qed.

Lemma latest_reading_in_last_bucket_witness :
  offered "10T" /\ ("6H" <> "Custom" \/ @None Z = None \/ @None Z = None) /\
  exists out w,
    update_dashboard Samples.scenario (One pH) "6H" "10T" None None 0 = Some out /\
    Pandas.to_offset "10T" = Some w /\
    out_table_data out <> [].
Proof.
  split; [now left|]. split; [now right; left|].
  destruct (latest_reading_in_last_bucket (Samples.reading Samples.t0900 7%float)
              (tl Samples.scenario) (One pH) "6H" "10T" None None 0
              (or_introl eq_refl) (or_intror (or_introl eq_refl)))
    as (out & w & Hout & Hw & _ & Hne & _).
  exists out, w. split; [exact Hout|]. split; [exact Hw | exact Hne].
Defined.

(** The rows of a frame whose timestamps lie in a window are no more
    than the bucket widths the window spans, rounded up, plus one. *)
Lemma resample_length_bound (w left right : Z) (df : DataFrame) :
  0 < w -> left <= right ->
  (forall r, In r df -> left <= timestamp r <= right) ->
  Z.of_nat (List.length (Pandas.resample_mean w df)) <= (right - left + w - 1) / w + 1.
Proof.
  intros Hw Hlr Hin. destruct df as [|r0 df].
  { simpl. assert (0 <= (right - left + w - 1) / w) by (apply Z.div_pos; lia). lia. }
  destruct (resample_span w (r0 :: df) Hw ltac:(discriminate))
    as (s & n & rmin & rmax & Hts & Hmin & Hmax & _ & Hlo & Hhi).
  rewrite <- (length_map timestamp), Hts, date_range_length, Nat2Z.inj_succ.
  assert (H1 := Hin rmin Hmin). assert (H2 := Hin rmax Hmax).
  assert (Z.of_nat n <= (right - left + w - 1) / w); [|lia].
  apply Z.div_le_lower_bound; [assumption | nia].
Qed.

(** X6: the table is bounded by the window, not by the number of
    readings.  For a non-empty frame, an offered aggregation of width
    [w] and a window whose start is not after its end, the table has at
    most ceil((end - start) / w) + 1 rows; for every range but a
    complete "Custom" one the window is the range's duration long, so a
    six-hour window in ten-minute buckets has at most 37 rows. *)
Theorem table_rows_bounded_by_window (r0 : Row) (rest : DataFrame)
    (selected_params : Selection) (time_range aggregation : string)
    (custom_start custom_end : option Z) (n_intervals : nat) :
  offered aggregation ->
  let df := r0 :: rest in
  let window :=
    select_window (Pandas.series_max (timestamp r0) (map timestamp rest))
      time_range custom_start custom_end in
  exists out w,
    update_dashboard df selected_params time_range aggregation
      custom_start custom_end n_intervals = Some out /\
    Pandas.to_offset aggregation = Some w /\
    (fst window <= snd window ->
     Z.of_nat (List.length (out_table_data out))
     <= (snd window - fst window + w - 1) / w + 1) /\
    (time_range <> "Custom" \/ custom_start = None \/ custom_end = None ->
     Z.of_nat (List.length (out_table_data out))
     <= (Pandas.Timedelta_hours (Python.dict_get hours_delta time_range 6) + w - 1) / w + 1).
Proof.
  intros Hoff df window.
  destruct (offered_width aggregation Hoff) as (w & Hw & Hpos & _).
  destruct (update_dashboard_cons r0 rest selected_params time_range aggregation
              custom_start custom_end n_intervals w Hw) as (out & Hout & Htable & _).
  fold df window in Htable.
  exists out, w. split; [exact Hout|]. split; [exact Hw|].
  assert (Hbound : fst window <= snd window ->
            Z.of_nat (List.length (out_table_data out))
            <= (snd window - fst window + w - 1) / w + 1).
  { intros Hle. rewrite Htable. apply resample_length_bound; try assumption.
    intros r Hr. now apply filter_between_In in Hr. }
  split; [exact Hbound|].
  intros Hnamed.
  assert (Ewin := select_window_named
                    (Pandas.series_max (timestamp r0) (map timestamp rest))
                    time_range custom_start custom_end Hnamed).
  fold window in Ewin.
  assert (Hh := Timedelta_hours_pos _ (hours_delta_pos time_range)).
  rewrite Ewin in Hbound. cbn [fst snd] in Hbound.
  match type of Hbound with
  | _ -> _ <= (?a - (?a - ?h) + _ - 1) / _ + 1 =>
      replace (a - (a - h)) with h in Hbound by ring
  end.
  apply Hbound. lia.
Qed.

Lemma table_rows_bounded_by_window_witness :
  offered "10T" /\
  exists out w,
    update_dashboard Samples.scenario (One pH) "6H" "10T" None None 0 = Some out /\
    Pandas.to_offset "10T" = Some w /\
    ("6H" <> "Custom" \/ @None Z = None \/ @None Z = None ->
     Z.of_nat (List.length (out_table_data out))
     <= (Pandas.Timedelta_hours (Python.dict_get hours_delta "6H" 6) + w - 1) / w + 1).
Proof.
  split; [now left|].
  destruct (table_rows_bounded_by_window (Samples.reading Samples.t0900 7%float)
              (tl Samples.scenario) (One pH) "6H" "10T" None None 0 (or_introl eq_refl))
    as (out & w & Hout & Hw & _ & Hb).
  exists out, w. split; [exact Hout|]. split; [exact Hw | exact Hb].
Defined.

(** X7: the buckets are disjoint and cover the frame.  For every
    frame and bucket width, each reading lies in the bucket of exactly
    one row of the resampled frame. *)
Theorem reading_in_exactly_one_row (w : Z) (df : DataFrame) (r : Row) :
  0 < w -> In r df ->
  exists row,
    In row (Pandas.resample_mean w df) /\
    Pandas.in_bin w (timestamp row) r = true /\
    forall row', In row' (Pandas.resample_mean w df) ->
                 Pandas.in_bin w (timestamp row') r = true -> row' = row.
Proof.
  intros Hw Hr.
  assert (Hne : df <> []) by (intros ->; destruct Hr).
  destruct (resample_span w df Hw Hne) as (s & n & rmin & rmax & Hts & _ & _ & Hb & Hlo & Hhi).
  specialize (Hb r Hr).
  set (k := (timestamp r - s) / w).
  assert (Hk := Z.div_mod (timestamp r - s) w ltac:(lia)). fold k in Hk.
  assert (Hkb := Z.mod_pos_bound (timestamp r - s) w Hw).
  assert (Hk0 : 0 <= k) by (apply Z.div_pos; lia).
  assert (Hin : In (s + k * w) (map timestamp (Pandas.resample_mean w df))).
  { rewrite Hts. apply date_range_In. exists k. split; [nia | reflexivity]. }
  apply in_map_iff in Hin. destruct Hin as (row & Erow & Hrow).
  exists row. split; [exact Hrow|]. split.
  - unfold Pandas.in_bin. rewrite Erow.
    apply andb_true_iff. split; [apply Z.leb_le | apply Z.ltb_lt]; lia.
  - intros row' Hrow' Hbin.
    assert (Hin' : In (timestamp row') (Pandas.date_range s w (S n))).
    { rewrite <- Hts. now apply in_map. }
    apply date_range_In in Hin'. destruct Hin' as (k' & Hk' & Ek').
    unfold Pandas.in_bin in Hbin. apply andb_true_iff in Hbin.
    rewrite Z.leb_le, Z.ltb_lt, Ek' in Hbin.
    assert (k' = k) by nia. subst k'.
    rewrite (resample_row w df row' Hrow'), (resample_row w df row Hrow).
    now rewrite Ek', Erow.
Qed.

Lemma reading_in_exactly_one_row_witness :
  0 < Samples.minutes 10 /\
  In (Samples.reading Samples.t0900 7%float) Samples.gap /\
  exists row,
    In row (Pandas.resample_mean (Samples.minutes 10) Samples.gap) /\
    Pandas.in_bin (Samples.minutes 10) (timestamp row)
      (Samples.reading Samples.t0900 7%float) = true.
Proof.
  split; [reflexivity|]. split; [now left|].
  destruct (reading_in_exactly_one_row (Samples.minutes 10) Samples.gap
              (Samples.reading Samples.t0900 7%float) eq_refl (or_introl eq_refl))
    as (row & Hrow & Hbin & _).
  exists row. split; [exact Hrow | exact Hbin].
Defined.

Lemma bin_labels_ext (w : Z) (ts ts' : list Z) :
  (forall t, In t ts <-> In t ts') -> Pandas.bin_labels w ts = Pandas.bin_labels w ts'.
Proof.
  intros H. destruct ts as [|t0 rest], ts' as [|u0 urest]; [reflexivity | | |].
  - exfalso. apply (proj2 (H u0)). now left.
  - exfalso. apply (proj1 (H t0)). now left.
  - assert (Emin : Pandas.series_min t0 rest = Pandas.series_min u0 urest).
    { apply Z.le_antisymm.
      - apply series_min_spec, H, series_min_spec.
      - apply series_min_spec, H, series_min_spec. }
    assert (Emax : Pandas.series_max t0 rest = Pandas.series_max u0 urest).
    { apply Z.le_antisymm.
      - apply series_max_spec, H, series_max_spec.
      - apply series_max_spec, H, series_max_spec. }
    unfold Pandas.bin_labels. now rewrite Emin, Emax.
Qed.

(** X8: the buckets do not depend on the order in which the readings
    are stored.  Two frames with the same rows in any order resample to
    the same bucket starts, and every bucket has the same number of
    observations of each column. *)
Theorem buckets_independent_of_row_order (w : Z) (df df' : DataFrame) :
  Permutation df df' ->
  map timestamp (Pandas.resample_mean w df) = map timestamp (Pandas.resample_mean w df') /\
  forall p b, bin_count w df p b = bin_count w df' p b.
Proof.
  intros Hperm. split.
  - rewrite !resample_timestamps. apply bin_labels_ext. intros t.
    rewrite !axis_In. split; apply Permutation_in, Permutation_map;
      [exact Hperm | symmetry; exact Hperm].
  - intros p b. unfold bin_count, Pandas.observed, Pandas.bin_rows.
    now apply Permutation_length, Permutation_filter_compat, Permutation_map,
      Permutation_filter_compat.
Qed.

Lemma buckets_independent_of_row_order_witness :
  Permutation Samples.gap (rev Samples.gap) /\
  map timestamp (Pandas.resample_mean (Samples.minutes 10) Samples.gap)
  = map timestamp (Pandas.resample_mean (Samples.minutes 10) (rev Samples.gap)).
Proof.
  split; [apply Permutation_rev|].
  apply (buckets_independent_of_row_order (Samples.minutes 10) Samples.gap (rev Samples.gap)).
  apply Permutation_rev.
Defined.

(** The grouper's sort leaves a frame in timestamp order as it is. *)
Lemma sort_values_time_ordered (df : DataFrame) :
  time_ordered df -> Pandas.sort_values df = df.
Proof.
  unfold time_ordered. induction 1 as [|a l Hs IH Hall]; [reflexivity|].
  cbn [Pandas.sort_values fold_right]. fold (Pandas.sort_values l). rewrite IH.
  destruct l as [|b l]; [reflexivity|].
  cbn [Pandas.insert_row]. apply Forall_inv in Hall.
  now replace (timestamp a <=? timestamp b) with true by (symmetry; apply Z.leb_le; lia).
Qed.

Lemma filter_time_ordered (f : Row -> bool) (df : DataFrame) :
  time_ordered df -> time_ordered (filter f df).
Proof.
  unfold time_ordered. induction 1 as [|a l Hs IH Hall]; [constructor|].
  cbn [filter]. destruct (f a); [|exact IH]. constructor; [exact IH|].
  rewrite Forall_forall in *. intros x Hx. apply filter_In in Hx. now apply Hall.
Qed.

Lemma window_frame_time_ordered (df : DataFrame) (time_range : string)
    (custom_start custom_end : option Z) :
  time_ordered df -> time_ordered (window_frame df time_range custom_start custom_end).
Proof.
  intros H. destruct df as [|r0 rest]; [constructor|]. unfold window_frame.
  destruct (select_window _ time_range custom_start custom_end).
  now apply filter_time_ordered.
Qed.

(** X9: when the frame of the day is in timestamp order, the windowed
    frame is too and the aggregation does not reorder it: each cell of
    the table is the mean of its column over the readings of the
    windowed frame that fall in the row's bucket, taken in the order in
    which they are stored. *)
Theorem ordered_frame_aggregates_in_stored_order (r0 : Row) (rest : DataFrame)
    (selected_params : Selection) (time_range aggregation : string)
    (custom_start custom_end : option Z) (n_intervals : nat) :
  offered aggregation ->
  time_ordered (r0 :: rest) ->
  let df_filtered := window_frame (r0 :: rest) time_range custom_start custom_end in
  exists out w,
    update_dashboard (r0 :: rest) selected_params time_range aggregation
      custom_start custom_end n_intervals = Some out /\
    Pandas.to_offset aggregation = Some w /\
    time_ordered df_filtered /\
    forall row p, In row (out_table_data out) ->
      cell p row
      = Pandas.group_mean (map (cell p) (Pandas.bin_rows w (timestamp row) df_filtered)).
Proof.
  intros Hoff Hord df_filtered.
  destruct (offered_width aggregation Hoff) as (w & Hw & _).
  destruct (update_dashboard_window r0 rest selected_params time_range aggregation
              custom_start custom_end n_intervals w Hw) as (out & Hout & Htable & _).
  fold df_filtered in Htable.
  assert (Hord' : time_ordered df_filtered) by now apply window_frame_time_ordered.
  exists out, w. split; [exact Hout|]. split; [exact Hw|]. split; [exact Hord'|].
  intros row p Hrow. rewrite Htable in Hrow.
  rewrite (resample_cell w df_filtered row p Hrow).
  now rewrite (sort_values_time_ordered df_filtered Hord').
Qed.

Lemma ordered_frame_aggregates_in_stored_order_witness :
  offered "10T" /\ time_ordered Samples.scenario /\
  exists out w,
    update_dashboard Samples.scenario (One pH) "6H" "10T" None None 0 = Some out /\
    Pandas.to_offset "10T" = Some w /\
    time_ordered (window_frame Samples.scenario "6H" None None).
Proof.
  assert (Hord : time_ordered Samples.scenario).
  { unfold time_ordered, Samples.scenario.
    repeat (constructor; [|repeat constructor; discriminate]). constructor. }
  split; [now left|]. split; [exact Hord|].
  destruct (ordered_frame_aggregates_in_stored_order (Samples.reading Samples.t0900 7%float)
              (tl Samples.scenario) (One pH) "6H" "10T" None None 0
              (or_introl eq_refl) Hord)
    as (out & w & Hout & Hw & Ho & _).
  exists out, w. split; [exact Hout|]. split; [exact Hw | exact Ho].
Defined.

(** ** Further properties of the session *)

Lemma resample_strictly_ascending (w : Z) (df : DataFrame) :
  0 < w -> StronglySorted Z.lt (map timestamp (Pandas.resample_mean w df)).
Proof.
  intros Hw. destruct df as [|r0 df]; [constructor|].
  destruct (resample_labels_from_origin w r0 df Hw) as (k0 & n & _ & ->).
  now apply date_range_sorted.
Qed.

(** What a refresh of the page leaves in the store: the empty dict, or
    the document of a table with strictly ascending bucket starts on
    whole milliseconds. *)
Lemma store_after_refresh (df : DataFrame) (selected_params : Selection)
    (time_range aggregation : string) (custom_start custom_end : option Z)
    (n_intervals : nat) :
  offered aggregation ->
  exists out,
    update_dashboard df selected_params time_range aggregation
      custom_start custom_end n_intervals = Some out /\
    (out_store out = StoreDict \/
     exists table,
       out_store out = StoreJson (to_json_split table) /\
       StronglySorted Z.lt (map timestamp table) /\
       forall r, In r table -> (Pandas.nanos_per_milli | timestamp r)).
Proof.
  intros Hoff. destruct df as [|r0 rest].
  { eexists. split; [reflexivity|]. now left. }
  destruct (offered_width aggregation Hoff) as (w & Hw & Hpos & Hday & Hms).
  destruct (update_dashboard_window r0 rest selected_params time_range aggregation
              custom_start custom_end n_intervals w Hw)
    as (out & Hout & Htable & _ & _ & Hstore & _).
  exists out. split; [exact Hout|].
  right. exists (out_table_data out). split; [exact Hstore|]. rewrite Htable. split.
  - now apply resample_strictly_ascending.
  - intros r Hr. now apply (table_on_milliseconds w _ r Hpos Hday Hms Hr).
Qed.

Lemma run_cons (store : store_data) (e : event) (events : list event) :
  run store (e :: events)
  = match step store e with
    | Some (store', _) => run store' events
    | None => None
    end.
Proof.
  unfold run. cbn [fold_left]. destruct (step store e) as [[store' d]|]; [reflexivity|].
  cbn [option_map]. induction events as [|e' events IH]; [reflexivity | exact IH].
Qed.

Lemma run_store_invariant (events : list event) (store : store_data) :
  Forall offered_event events ->
  (store = StoreNone \/ store = StoreDict \/
   exists table,
     store = StoreJson (to_json_split table) /\
     StronglySorted Z.lt (map timestamp table) /\
     forall r, In r table -> (Pandas.nanos_per_milli | timestamp r)) ->
  exists store',
    run store events = Some store' /\
    (store' = StoreNone \/ store' = StoreDict \/
     exists table,
       store' = StoreJson (to_json_split table) /\
       StronglySorted Z.lt (map timestamp table) /\
       forall r, In r table -> (Pandas.nanos_per_milli | timestamp r)).
Proof.
  intros Hev. revert store.
  induction Hev as [|e events He _ IH]; intros store Hinv; [now exists store|].
  rewrite run_cons.
  destruct e as [df sel tr agg cs ce n | n_clicks now]; cbn [step]; [|now apply IH].
  destruct (store_after_refresh df sel tr agg cs ce n He) as (out & -> & H).
  apply IH. destruct H as [H | H]; [now right; left | now right; right].
Qed.

(** X11: every workbook the dashboard sends is well formed.  A session
    that starts with an empty store and whose refreshes use the
    aggregations of the dropdown runs to its end, whatever the frames,
    the other controls and the order of refreshes and clicks, and a
    download at its end has the name water_quality_data_<now>.xlsx,
    one sheet "Data" with the columns timestamp, pH, TDS, Depth,
    FlowInd, and rows whose bucket starts are strictly ascending. *)
Theorem every_download_is_well_formed (events : list event) (n_clicks : option nat)
    (now : string) :
  Forall offered_event events ->
  exists store download,
    run StoreNone events = Some store /\
    step store (ExportClick n_clicks now) = Some (store, download) /\
    forall dl, download = Some dl ->
      dl_filename dl = ("water_quality_data_" ++ now ++ ".xlsx")%string /\
      dl_sheet_name dl = "Data" /\
      dl_columns dl = ["timestamp"; "pH"; "TDS"; "Depth"; "FlowInd"] /\
      StronglySorted Z.lt (map timestamp (dl_rows dl)).
Proof.
  intros Hev.
  destruct (run_store_invariant events StoreNone Hev (or_introl eq_refl))
    as (store & Hrun & Hinv).
  exists store, (export_data n_clicks store now).
  split; [exact Hrun|]. split; [reflexivity|]. intros dl Hdl.
  destruct Hinv as [E | [E | (table & E & Hsorted & Hms)]]; rewrite E in Hdl.
  - destruct n_clicks as [[|k]|]; discriminate Hdl.
  - destruct n_clicks as [[|k]|]; discriminate Hdl.
  - destruct n_clicks as [[|k]|]; try discriminate Hdl.
    rewrite (export_of_table table k now Hms) in Hdl. injection Hdl as <-.
    cbn [dl_filename dl_sheet_name dl_columns dl_rows].
    repeat split. rewrite map_map. exact Hsorted.
Qed.

Lemma every_download_is_well_formed_witness :
  Forall offered_event
    [Refresh Samples.gap (One pH) "1D" "H" None None 0;
     Refresh Samples.scenario (One pH) "6H" "10T" None None 1] /\
  exists store dl,
    run StoreNone
      [Refresh Samples.gap (One pH) "1D" "H" None None 0;
       Refresh Samples.scenario (One pH) "6H" "10T" None None 1] = Some store /\
    step store (ExportClick (Some 1%nat) "20241028_0930") = Some (store, Some dl) /\
    map timestamp (dl_rows dl) = [Samples.t0900; Samples.t0900 + Samples.minutes 10] /\
    StronglySorted Z.lt (map timestamp (dl_rows dl)).
Proof.
  assert (Hev : Forall offered_event
                  [Refresh Samples.gap (One pH) "1D" "H" None None 0;
                   Refresh Samples.scenario (One pH) "6H" "10T" None None 1]).
  { apply Forall_cons; [|apply Forall_cons; [|apply Forall_nil]];
      unfold offered_event, offered; cbn [map snd AGGREGATIONS In]; auto 10. }
  split; [exact Hev|].
  destruct (every_download_is_well_formed _ (Some 1%nat) "20241028_0930" Hev)
    as (store & download & Hrun & Hstep & Hwf).
  assert (Hstore : Some store
                   = run StoreNone
                       [Refresh Samples.gap (One pH) "1D" "H" None None 0;
                        Refresh Samples.scenario (One pH) "6H" "10T" None None 1])
    by (now rewrite Hrun).
  vm_compute in Hstore. injection Hstore as ->.
  eexists. eexists. split; [vm_compute; reflexivity|].
  split; [vm_compute; reflexivity|]. split; [vm_compute; reflexivity|].
  apply Hwf. vm_compute in Hstep. now injection Hstep as <-.
Defined.

(** ** Further properties of the cards *)

Lemma Prim2SF_nan (x : float) : Prim2SF x = S754_nan -> missing x = true.
Proof.
  unfold missing, Prim2SF. destruct (PrimFloat.is_nan x); [reflexivity|].
  destruct (PrimFloat.is_zero x); [discriminate|].
  destruct (PrimFloat.is_infinity x); [discriminate|].
  destruct (Z.frexp x) as [r exp].
  destruct (shr_fexp prec emax (Uint63Axioms.to_Z (normfr_mantissa r)) (exp - prec) loc_Exact)
    as [shr e'].
  destruct (shr_m shr); discriminate.
Qed.

Lemma format_2f_two_decimals_iff (x : float) :
  two_decimals (Python.format_2f x) = true <-> finite x = true.
Proof.
  split; [|apply format_2f_finite].
  unfold finite, Python.format_2f.
  destruct (Prim2SF x) as [s | s | | s m e]; try reflexivity.
  - destruct s; discriminate.
  - discriminate.
Qed.

Lemma format_2f_nan_iff (x : float) :
  Python.format_2f x = "nan" <-> missing x = true.
Proof.
  split; [|apply format_2f_missing].
  intros H. destruct (finite x) eqn:F.
  - apply format_2f_finite in F. rewrite H in F. discriminate F.
  - unfold finite in F. unfold Python.format_2f in H.
    destruct (Prim2SF x) as [s | s | | s m e] eqn:E; try discriminate F.
    + destruct s; discriminate H.
    + now apply Prim2SF_nan.
Qed.

(** X13: a card tells what the latest value is.  For a non-empty frame
    a card shows "nan" exactly when the latest reading has no value for
    its field, and a numeral with two decimals exactly when that value
    is finite. *)
Theorem card_classifies_latest_value (r0 : Row) (rest : DataFrame)
    (selected_params : Selection) (time_range aggregation : string)
    (custom_start custom_end : option Z) (n_intervals : nat) :
  offered aggregation ->
  exists out,
    update_dashboard (r0 :: rest) selected_params time_range aggregation
      custom_start custom_end n_intervals = Some out /\
    forall p,
      (card p out = "nan" <-> missing (cell p (last (r0 :: rest) r0)) = true) /\
      (two_decimals (card p out) = true <-> finite (cell p (last (r0 :: rest) r0)) = true).
Proof.
  intros Hoff. destruct (offered_width aggregation Hoff) as (w & Hw & _).
  destruct (update_dashboard_cons r0 rest selected_params time_range aggregation
              custom_start custom_end n_intervals w Hw)
    as (out & Hout & _ & _ & _ & _ & Hvalues).
  exists out. split; [exact Hout|]. intros p.
  rewrite (card_of_values p out _ Hvalues).
  split; [apply format_2f_nan_iff | apply format_2f_two_decimals_iff].
Qed.

Lemma card_classifies_latest_value_witness :
  offered "10T" /\
  exists out,
    update_dashboard Samples.missing_pH (One pH) "6H" "10T" None None 0 = Some out /\
    forall p,
      (card p out = "nan"
       <-> missing (cell p (last Samples.missing_pH
                              (mkRow Samples.t0900 PrimFloat.nan 120 2 3))) = true) /\
      (two_decimals (card p out) = true
       <-> finite (cell p (last Samples.missing_pH
                             (mkRow Samples.t0900 PrimFloat.nan 120 2 3))) = true).
Proof.
  split; [now left|].
  apply (card_classifies_latest_value (mkRow Samples.t0900 PrimFloat.nan 120 2 3) []
           (One pH) "6H" "10T" None None 0).
  now left.
Defined.

(** ** The metric cards of the layout *)

Lemma PARAMETERS_item_Some (key : string) (config : ParamConfig) :
  PARAMETERS_item key = Some config ->
  exists p, param_id p = key /\ config = PARAMETERS p.
Proof.
  unfold PARAMETERS_item. destruct (find _ PARAMETERS_keys) as [p|] eqn:E; [|discriminate].
  intros H. injection H as <-. apply find_some in E. destruct E as [_ E].
  apply String.eqb_eq in E. now exists p.
Qed.

Lemma PARAMETERS_item_id (p : Param) : PARAMETERS_item (param_id p) = Some (PARAMETERS p).
Proof. destruct p; reflexivity. Qed.

(** X14: [create_metric_card] builds a card exactly for the keys of
    [PARAMETERS] and raises for any other key.  The card holds one
    component with an id, [f"{param_key}-value"], which is one of the
    ids [update_dashboard] writes the card values to; that component
    starts with the placeholder "--", the text [update_dashboard]
    writes for an empty frame. *)
Theorem metric_card_matches_callback (title icon_class param_key : string) :
  (create_metric_card title icon_class param_key = None
   <-> ~ In param_key (map param_id PARAMETERS_keys)) /\
  forall c, create_metric_card title icon_class param_key = Some c ->
    exists p,
      param_id p = param_key /\
      component_ids c = [(param_key ++ "-value")%string] /\
      In (param_key ++ "-value")%string value_output_ids /\
      children_of_id (param_key ++ "-value")%string c = [[Text "--"]] /\
      forall out selected_params time_range aggregation custom_start custom_end n_intervals,
        update_dashboard [] selected_params time_range aggregation
          custom_start custom_end n_intervals = Some out ->
        card p out = "--".
Proof.
  unfold create_metric_card. split.
  - destruct (PARAMETERS_item param_key) as [config|] eqn:E.
    + split; [discriminate|]. intros H. exfalso. apply H.
      destruct (PARAMETERS_item_Some _ _ E) as (p & <- & _).
      apply in_map. destruct p; cbn; auto.
    + split; [|reflexivity]. intros _ Hin. apply in_map_iff in Hin.
      destruct Hin as (p & <- & _). now rewrite PARAMETERS_item_id in E.
  - intros c H. destruct (PARAMETERS_item param_key) as [config|] eqn:E; [|discriminate H].
    injection H as <-. destruct (PARAMETERS_item_Some _ _ E) as (p & <- & _).
    exists p. split; [reflexivity|]. split; [reflexivity|].
    split; [apply (in_map (fun p => (param_id p ++ "-value")%string)); destruct p; cbn; auto|].
    split.
    + cbn [children_of_id flat_map app]. rewrite String.eqb_refl. reflexivity.
    + intros out sel tr agg cs ce n Hout. injection Hout as <-. now destruct p.
Qed.
